(** * Playwright D365 framework: form attributes, subgrids and data factories

    A shallow embedding of
      - [framework/modules/Attribute.ts]   (typed get/set of form fields),
      - [framework/components/SubGrid.ts]  (related-records grid reader),
      - [framework/components/Control.ts]  (control state queries),
      - [tests/data/factories/AccountFactory.ts] and [ContactFactory.ts]
    together with the properties their specification states about them.

    The host application (the [window.Xrm] client object living in the
    browser page) is modelled as an explicit store; every accessor is a
    computation in a small state-and-exception monad over that store. *)

From Stdlib Require Import ZArith Lia List Ascii String Bool.
From stdpp Require Import base option list gmap strings pretty.

(* ===================================================================== *)
(** ** JavaScript dates: time values and the ISO-8601 transport encoding *)
(* ===================================================================== *)

(** A JavaScript [Date] holds a time value: an integral number of
    milliseconds since the epoch, of magnitude at most 8.64e15, or NaN (an
    "Invalid Date").  [Date.prototype.toISOString] and [Date.parse] are the
    two built-ins the attribute accessor uses to move a date across the
    automation boundary; they are written out here on lists of characters
    for the one format [toISOString] emits,
    [YYYY-MM-DDTHH:mm:ss.sssZ] (with the expanded [±YYYYYY] year outside
    0..9999). *)
Module JsDate.
Local Open Scope Z_scope.

Definition msPerDay : Z := 86400000.
Definition maxTime : Z := 8640000000000000.

Definition valid_time (t : Z) : Prop := - maxTime <= t <= maxTime.
Definition valid_timeb (t : Z) : bool := (- maxTime <=? t) && (t <=? maxTime).

(** *** Calendar arithmetic (proleptic Gregorian, years starting in March) *)

(** Day within a 400-year era (146097 days) to the year of the era. The
    eras are cut at 1 March so that the leap day closes each cycle. *)
Definition year_of_era (doe : Z) : Z * Z :=
  let c := Z.min (doe / 36524) 3 in
  let doc := doe - c * 36524 in
  let q := doc / 1461 in
  let doq := doc - q * 1461 in
  let yq := Z.min (doq / 365) 3 in
  (c * 100 + q * 4 + yq, doq - yq * 365).

(** Day of a March-based year to (month, day of month). *)
Definition month_day (doy : Z) : Z * Z :=
  let mp := (5 * doy + 2) / 153 in
  let d := doy - (153 * mp + 2) / 5 + 1 in
  (if mp <? 10 then mp + 3 else mp - 9, d).

Definition day_of_year (m d : Z) : Z :=
  let mp := if 2 <? m then m - 3 else m + 9 in
  (153 * mp + 2) / 5 + d - 1.

Definition civil_from_days (z : Z) : Z * Z * Z :=
  let z' := z + 719468 in
  let era := z' / 146097 in
  let doe := z' mod 146097 in
  let '(yoe, doy) := year_of_era doe in
  let '(m, d) := month_day doy in
  let y := yoe + era * 400 in
  (if m <=? 2 then y + 1 else y, m, d).

Definition days_from_civil (y m d : Z) : Z :=
  let y' := if m <=? 2 then y - 1 else y in
  let era := y' / 400 in
  let yoe := y' mod 400 in
  era * 146097 + (yoe * 365 + yoe / 4 - yoe / 100 + day_of_year m d) - 719468.

(** *** Fixed-width decimal fields *)

Definition digit_char (d : Z) : ascii := ascii_of_nat (48 + Z.to_nat d).

Definition digit_val (c : ascii) : option Z :=
  let n := Z.of_nat (nat_of_ascii c) in
  if (48 <=? n) && (n <=? 57) then Some (n - 48) else None.

Fixpoint pad_digits (w : nat) (n : Z) : list ascii :=
  match w with
  | O => []
  | S w' => digit_char (n / 10 ^ Z.of_nat w') :: pad_digits w' (n mod 10 ^ Z.of_nat w')
  end.

Fixpoint read_digits (w : nat) (acc : Z) (l : list ascii) : option (Z * list ascii) :=
  match w with
  | O => Some (acc, l)
  | S w' =>
      match l with
      | c :: l' =>
          match digit_val c with
          | Some d => read_digits w' (10 * acc + d) l'
          | None => None
          end
      | [] => None
      end
  end.

Definition expect (c : ascii) (l : list ascii) : option (list ascii) :=
  match l with
  | c' :: l' => if Ascii.eqb c c' then Some l' else None
  | [] => None
  end.

(** *** [Date.prototype.toISOString] *)

Definition year_chars (y : Z) : list ascii :=
  if (0 <=? y) && (y <=? 9999) then pad_digits 4 y
  else (if y <? 0 then "-"%char else "+"%char) :: pad_digits 6 (Z.abs y).

Definition iso_chars (t : Z) : list ascii :=
  let day := t / msPerDay in
  let tod := t mod msPerDay in
  let '(y, m, d) := civil_from_days day in
  year_chars y ++ "-"%char :: pad_digits 2 m ++ "-"%char :: pad_digits 2 d
    ++ "T"%char :: pad_digits 2 (tod / 3600000)
    ++ ":"%char :: pad_digits 2 (tod / 60000 mod 60)
    ++ ":"%char :: pad_digits 2 (tod / 1000 mod 60)
    ++ "."%char :: pad_digits 3 (tod mod 1000) ++ ["Z"%char].

(** The string [toISOString] returns for a date whose time value is [t]. *)
Definition toISOString (t : Z) : string := string_of_list_ascii (iso_chars t).

(** *** [Date.parse] *)

Definition read_year (l : list ascii) : option (Z * list ascii) :=
  match l with
  | c :: l' =>
      if Ascii.eqb c "+" then read_digits 6 0 l'
      else if Ascii.eqb c "-" then
        match read_digits 6 0 l' with
        | Some (y, r) => if y =? 0 then None else Some (- y, r)
        | None => None
        end
      else read_digits 4 0 l
  | [] => None
  end.

Definition parse_chars (l : list ascii) : option Z :=
  '(y, l) ← read_year l;
  l ← expect "-" l;
  '(m, l) ← read_digits 2 0 l;
  l ← expect "-" l;
  '(d, l) ← read_digits 2 0 l;
  l ← expect "T" l;
  '(h, l) ← read_digits 2 0 l;
  l ← expect ":" l;
  '(mi, l) ← read_digits 2 0 l;
  l ← expect ":" l;
  '(s, l) ← read_digits 2 0 l;
  l ← expect "." l;
  '(ms, l) ← read_digits 3 0 l;
  l ← expect "Z" l;
  match l with
  | [] =>
      if (1 <=? m) && (m <=? 12) && (1 <=? d) && (d <=? 31)
         && (h <=? 23) && (mi <=? 59) && (s <=? 59)
      then
        let t := days_from_civil y m d * msPerDay
                 + h * 3600000 + mi * 60000 + s * 1000 + ms in
        if valid_timeb t then Some t else None
      else None
  | _ :: _ => None
  end.

(** [Date.parse s]: [Some t] for a time value, [None] for NaN. Strings
    outside the format above fall to implementation-defined heuristics in
    a real engine; they are NaN here. *)
Definition parse (s : string) : option Z := parse_chars (list_ascii_of_string s).

End JsDate.

(* ===================================================================== *)
(** ** JavaScript values and the host application's form *)
(* ===================================================================== *)

(** The values a form attribute holds and the accessor passes around.
    Numbers are the integral ones; a [Date] carries its time value, [None]
    for an Invalid Date. *)
Inductive JsValue : Type :=
| VUndefined
| VNull
| VBool (b : bool)
| VNum (n : Z)
| VStr (s : string)
| VDate (t : option Z).

(** [Object.prototype.toString.call(value) === '[object Date]'] and
    [value instanceof Date]. *)
Definition isDateObject (v : JsValue) : bool :=
  match v with VDate _ => true | _ => false end.

(** A [Date] whose time value is NaN. *)
Definition isInvalidDate (v : JsValue) : bool :=
  match v with VDate None => true | _ => false end.

(** [typeof value === 'string'] *)
Definition isString (v : JsValue) : bool :=
  match v with VStr _ => true | _ => false end.

(** [new Date(v)] *)
Definition new_Date (v : JsValue) : JsValue :=
  match v with
  | VStr s => VDate (JsDate.parse s)
  | VNum n => VDate (if JsDate.valid_timeb n then Some n else None)
  | VBool b => VDate (Some (if b then 1 else 0)%Z)
  | VNull => VDate (Some 0%Z)
  | VUndefined => VDate None
  | VDate t => VDate t
  end.

(** Errors thrown by the accessors or by the built-ins they call. *)
Inductive Error : Type :=
| AttributeNotFound (name : string)
| ControlNotFound (name : string)
| SubgridNotFound (name : string)
| NotEditable (name : string)
| OutOfRange (position : Z) (len : nat)
| RangeError
| TypeError.

(** The message each [new Error(...)] of the source carries. *)
Definition error_message (e : Error) : string :=
  match e with
  | AttributeNotFound n => "Attribute '" +:+ n +:+ "' not found on form"
  | ControlNotFound n => "Control '" +:+ n +:+ "' not found on form"
  | SubgridNotFound n => "Subgrid control '" +:+ n +:+ "' not found on form"
  | NotEditable n =>
      "Attribute '" +:+ n
      +:+ "' has no unlocked and visible control, users can't set a value like that."
  | OutOfRange p len =>
      "Record index " +:+ pretty p +:+ " is out of range. Subgrid has "
      +:+ pretty len +:+ " records."
  | RangeError => "Invalid time value"
  | TypeError => "not a function"
  end.

(** The containers of a form, as the host application's object model has
    them: a control sits in a section and a section in a tab
    ([getParent()]), and each reports whether it is shown
    ([getVisible()]). Above a tab there is only the form itself, which has
    no visibility to report and which the source never asks for. *)
Record XrmTab : Type := {
  tabVisible : bool                 (* tab.getVisible() *)
}.

Record XrmSection : Type := {
  sectionVisible : bool;            (* section.getVisible() *)
  sectionParent : option XrmTab     (* section.getParent() *)
}.

Record GridRow : Type := {
  rowId : string;           (* getData().getEntity().getId() *)
  rowRefId : string;        (* getData().getEntity().getEntityReference().id *)
  rowEntityType : string    (* getData().getEntity().getEntityReference().entityType *)
}.

Record XrmGrid : Type := {
  gridEntityName : string;         (* control.getEntityName() *)
  gridRows : list GridRow;         (* control.getGrid().getRows() *)
  gridTotalRecordCount : Z         (* control.getGrid().getTotalRecordCount() *)
}.

Record XrmControl : Type := {
  ctlVisible : bool;
  ctlDisabled : bool;
  ctlParent : option XrmSection;   (* control.getParent() *)
  ctlLabel : string;
  ctlOptions : list (Z * string);
  ctlGrid : option XrmGrid         (* present on grid controls only *)
}.

Record XrmAttribute : Type := {
  attrType : string;               (* getAttributeType() *)
  attrValue : JsValue;             (* getValue() *)
  attrFormat : option string;      (* getFormat(): a format name or null *)
  attrRequiredLevel : string;      (* getRequiredLevel() *)
  attrIsDirty : bool;              (* getIsDirty() *)
  attrControls : list string       (* names of the controls bound to it *)
}.

(** What the accessors do to the host and to the clock, in order. *)
Inductive Event : Type :=
| EvSetValue (name : string) (v : JsValue)
| EvFireOnChange (name : string)
| EvSetRequiredLevel (name : string) (level : string)
| EvWaitForTimeout (ms : Z)
| EvRefresh (name : string)
| EvGoto (url : string).

(** A form as the application displays it: its attributes and controls by
    name. *)
Record Form : Type := {
  formAttributes : gmap string XrmAttribute;
  formControls : gmap string XrmControl
}.

(** The page under automation: the form's attributes and controls by
    name ([Xrm.Page.getAttribute], [Xrm.Page.getControl]), the page URL,
    the log of host calls made so far, and the application behind the
    page: the form it displays at each URL, which is what a navigation
    loads. Handlers the host form has registered for change notifications
    belong to the application, not to this repository; [fireOnChange] is
    recorded in the log. *)
Record World : Type := {
  attributes : gmap string XrmAttribute;
  controls : gmap string XrmControl;
  pageUrl : string;
  trace : list Event;
  served : string -> Form
}.

(* ===================================================================== *)
(** ** The accessor monad: state and exceptions *)
(* ===================================================================== *)

Inductive Result (A : Type) : Type :=
| Ok (a : A)
| Err (e : Error).
Arguments Ok {A} a.
Arguments Err {A} e.

Definition M (A : Type) : Type := World -> Result A * World.

Definition ret {A} (a : A) : M A := fun w => (Ok a, w).
Definition throw {A} (e : Error) : M A := fun w => (Err e, w).
Definition bind {A B} (m : M A) (k : A -> M B) : M B :=
  fun w => match m w with
           | (Ok a, w') => k a w'
           | (Err e, w') => (Err e, w')
           end.

Notation "'do' x <- m ;; k" := (bind m (fun x => k))
  (at level 10, x pattern, m at level 99, k at level 200).
Notation "'run' m ;; k" := (bind m (fun _ => k))
  (at level 10, m at level 99, k at level 200).

Definition getWorld : M World := fun w => (Ok w, w).
Definition emit (e : Event) : M unit :=
  fun w => (Ok tt, {| attributes := attributes w; controls := controls w;
                      pageUrl := pageUrl w; trace := trace w ++ [e];
                      served := served w |}).

(** Modelled from the spec: the bridge layer ([core/XrmHelper], not among
    the sources) is "a thin readiness-gate ... polling until a host
    application's client API object becomes available". A [World] is a
    page whose client object is available, so the gate returns at once. *)
Definition waitForXrmReady : M unit := ret tt.

(** [page.waitForTimeout(ms)] *)
Definition waitForTimeout (ms : Z) : M unit := emit (EvWaitForTimeout ms).

(** [window.Xrm.Page.getAttribute(name)] and [getControl(name)]: the
    object, or nothing. *)
Definition getAttribute (name : string) : M (option XrmAttribute) :=
  fun w => (Ok (attributes w !! name), w).
Definition getControl (name : string) : M (option XrmControl) :=
  fun w => (Ok (controls w !! name), w).

(** [attribute.controls.get()]: the controls bound to the attribute. *)
Definition attribute_controls (a : XrmAttribute) : M (list XrmControl) :=
  fun w => (Ok (omap (fun n => controls w !! n) (attrControls a)), w).

(** Whether two values are the same value, a [Date] by its time value. *)
Definition same_value (a b : JsValue) : bool :=
  match a, b with
  | VUndefined, VUndefined => true
  | VNull, VNull => true
  | VBool x, VBool y => Bool.eqb x y
  | VNum x, VNum y => Z.eqb x y
  | VStr x, VStr y => String.eqb x y
  | VDate (Some x), VDate (Some y) => Z.eqb x y
  | VDate None, VDate None => true
  | _, _ => false
  end.

(** The attribute after a write of [v]: it holds [v] and, when [v] is not
    the value it held, it has been changed ([getIsDirty()]). *)
Definition with_value (a : XrmAttribute) (v : JsValue) : XrmAttribute :=
  {| attrType := attrType a; attrValue := v; attrFormat := attrFormat a;
     attrRequiredLevel := attrRequiredLevel a;
     attrIsDirty := attrIsDirty a || negb (same_value (attrValue a) v);
     attrControls := attrControls a |}.

Definition with_requiredLevel (a : XrmAttribute) (l : string) : XrmAttribute :=
  {| attrType := attrType a; attrValue := attrValue a; attrFormat := attrFormat a;
     attrRequiredLevel := l; attrIsDirty := attrIsDirty a;
     attrControls := attrControls a |}.

(** [attribute.setValue(v)] on the attribute called [name]. *)
Definition host_setValue (name : string) (v : JsValue) : M unit :=
  fun w => (Ok tt,
            {| attributes := alter (fun a => with_value a v) name (attributes w);
               controls := controls w; pageUrl := pageUrl w;
               trace := trace w ++ [EvSetValue name v]; served := served w |}).

(** [attribute.setRequiredLevel(level)] *)
Definition host_setRequiredLevel (name level : string) : M unit :=
  fun w => (Ok tt,
            {| attributes := alter (fun a => with_requiredLevel a level) name (attributes w);
               controls := controls w; pageUrl := pageUrl w;
               trace := trace w ++ [EvSetRequiredLevel name level];
               served := served w |}).

(** [control.setVisible], [setDisabled], [setLabel] *)
Definition host_alterControl (name : string) (f : XrmControl -> XrmControl) : M unit :=
  fun w => (Ok tt,
            {| attributes := attributes w; controls := alter f name (controls w);
               pageUrl := pageUrl w; trace := trace w; served := served w |}).

(** [page.goto(url)]: the page becomes the form the application displays
    at [url]. *)
Definition page_goto (url : string) : M unit :=
  fun w => (Ok tt,
            {| attributes := formAttributes (served w url);
               controls := formControls (served w url);
               pageUrl := url; trace := trace w ++ [EvGoto url];
               served := served w |}).

(** [date.toISOString()]: throws a RangeError on an Invalid Date. *)
Definition js_toISOString (v : JsValue) : M JsValue :=
  match v with
  | VDate (Some t) => ret (VStr (JsDate.toISOString t))
  | VDate None => throw RangeError
  | _ => throw TypeError
  end.

(* ===================================================================== *)
(** ** [framework/modules/Attribute.ts] *)
(* ===================================================================== *)

Module Attribute.

(** [interface SetValueSettings]; [None] is a key that is absent or
    undefined. *)
Record SetValueSettings : Type := {
  settleTime : option Z;
  forceValue : option bool
}.

(** The [settings?: number | SetValueSettings] argument. *)
Inductive SettingsArg : Type :=
| NoSettings
| SettleNumber (n : Z)
| SettingsObject (o : SetValueSettings).

Definition defaults : SetValueSettings :=
  {| settleTime := Some 500%Z; forceValue := Some false |}.

(** [{ ...a, ...b }]: keys of [b] override those of [a]. A key of [b] that
    is present with value undefined would override too; it is then read
    back as undefined, which every later use ([|| 500], the truthiness of
    [forceValue]) treats as it treats the default. *)
Definition spread (a b : SetValueSettings) : SetValueSettings :=
  {| settleTime := match settleTime b with Some n => Some n | None => settleTime a end;
     forceValue := match forceValue b with Some f => Some f | None => forceValue a end |}.

Definition safeSettings (settings : SettingsArg) : SetValueSettings :=
  spread defaults
    match settings with
    | SettleNumber n => {| settleTime := Some n; forceValue := None |}
    | SettingsObject o => o
    | NoSettings => {| settleTime := None; forceValue := None |}
    end.

(** [safeSettings.settleTime || 500]: zero is falsy. *)
Definition settleTime_or_500 (s : SetValueSettings) : Z :=
  match settleTime s with
  | Some n => if (n =? 0)%Z then 500%Z else n
  | None => 500%Z
  end.

(** Truthiness of [opts.forceValue]. *)
Definition forced (s : SetValueSettings) : bool :=
  match forceValue s with Some b => b | None => false end.

(** The predicate of the [some(...)] call in [setValue]: the control is
    not disabled, is visible, its parent (if any) is visible and its
    parent's parent (if any) is visible. *)
Definition control_editable (control : XrmControl) : bool :=
  negb (ctlDisabled control)
  && ctlVisible control
  && match ctlParent control with
     | None => true
     | Some p => sectionVisible p
     end
  && match ctlParent control with
     | None => true
     | Some p =>
         match sectionParent p with
         | None => true
         | Some g => tabVisible g
         end
     end.

Definition getRequiredLevel (attributeName : string) : M string :=
  run waitForXrmReady ;;
  do attr <- getAttribute attributeName ;;
  match attr with
  | None => throw (AttributeNotFound attributeName)
  | Some attr => ret (attrRequiredLevel attr)
  end.

(** The function [getValue] evaluates inside the page: it returns the
    attribute's type and its value, a date as its ISO string. *)
Definition getValue_inPage (attrName : string) : M (string * JsValue) :=
  do attribute <- getAttribute attrName ;;
  match attribute with
  | None => throw (AttributeNotFound attrName)
  | Some attribute =>
      let attributeType := attrType attribute in
      let isDate := String.eqb attributeType "datetime" in
      let rawValue := attrValue attribute in
      do value <- (if isDate && isDateObject rawValue
                   then js_toISOString rawValue
                   else ret rawValue) ;;
      ret (attributeType, value)
  end.

(** On the automation side a string that came back for a datetime
    attribute is rebuilt with [new Date(Date.parse(value))], the same date
    as [new Date(value)]. *)
Definition getValue (attributeName : string) : M JsValue :=
  run waitForXrmReady ;;
  do (attributeType, value) <- getValue_inPage attributeName ;;
  if String.eqb attributeType "datetime" && isString value
  then ret (new_Date value)
  else ret value.

(** [attribute.getAttributeType() === 'datetime' ? new Date(val) : val] *)
Definition finalValue (attribute : XrmAttribute) (val : JsValue) : JsValue :=
  if String.eqb (attrType attribute) "datetime" then new_Date val else val.

(** The function [setValue] evaluates inside the page, on the value [val]
    that crossed the boundary and the merged settings [opts]. *)
Definition setValue_inPage (attrName : string) (val : JsValue)
    (opts : SetValueSettings) : M unit :=
  do attribute <- getAttribute attrName ;;
  match attribute with
  | None => throw (AttributeNotFound attrName)
  | Some attribute =>
      do ctls <- attribute_controls attribute ;;
      let editable := forced opts || existsb control_editable ctls in
      if negb editable then throw (NotEditable attrName)
      else
        run host_setValue attrName (finalValue attribute val) ;;
        emit (EvFireOnChange attrName)
  end.

Definition setValue (attributeName : string) (value : JsValue)
    (settings : SettingsArg) : M unit :=
  let safe := safeSettings settings in
  let isDate := isDateObject value in
  run waitForXrmReady ;;
  do val <- (if isDate then js_toISOString value else ret value) ;;
  run setValue_inPage attributeName val safe ;;
  waitForTimeout (settleTime_or_500 safe).

(** [for (const attributeName in values) await this.setValue(...)]: the
    mapping is given by its entries in iteration order. *)
Fixpoint setValues (values : list (string * JsValue)) (settings : SettingsArg)
    : M unit :=
  match values with
  | [] => ret tt
  | (attributeName, v) :: rest =>
      run setValue attributeName v settings ;;
      setValues rest settings
  end.

Definition getAttributeType (attributeName : string) : M string :=
  run waitForXrmReady ;;
  do attr <- getAttribute attributeName ;;
  match attr with
  | None => throw (AttributeNotFound attributeName)
  | Some attr => ret (attrType attr)
  end.

Definition getFormattedValue (attributeName : string) : M (option string) :=
  run waitForXrmReady ;;
  do attribute <- getAttribute attributeName ;;
  match attribute with
  | None => throw (AttributeNotFound attributeName)
  | Some attribute => ret (attrFormat attribute)
  end.

Definition isDirty (attributeName : string) : M bool :=
  run waitForXrmReady ;;
  do attr <- getAttribute attributeName ;;
  match attr with
  | None => throw (AttributeNotFound attributeName)
  | Some attr => ret (attrIsDirty attr)
  end.

Definition setRequiredLevel (attributeName requirementLevel : string) : M unit :=
  run waitForXrmReady ;;
  do attr <- getAttribute attributeName ;;
  match attr with
  | None => throw (AttributeNotFound attributeName)
  | Some _ => host_setRequiredLevel attributeName requirementLevel
  end.

End Attribute.

(* ===================================================================== *)
(** ** [framework/components/SubGrid.ts] *)
(* ===================================================================== *)

Module SubGrid.

Definition is_brace (c : ascii) : bool :=
  Ascii.eqb c "{" || Ascii.eqb c "}".

(** [s.replace(/[{}]/g, '')] *)
Fixpoint remove_braces (s : string) : string :=
  match s with
  | EmptyString => EmptyString
  | String c r => if is_brace c then remove_braces r else String c (remove_braces r)
  end.

Definition is_upper (c : ascii) : bool :=
  let n := nat_of_ascii c in (65 <=? n)%nat && (n <=? 90)%nat.

(** [toLowerCase] on the ASCII letters (identifiers are GUIDs). *)
Definition lower_char (c : ascii) : ascii :=
  if is_upper c then ascii_of_nat (nat_of_ascii c + 32) else c.

Fixpoint toLowerCase (s : string) : string :=
  match s with
  | EmptyString => EmptyString
  | String c r => String (lower_char c) (toLowerCase r)
  end.

Definition normalizeId (rawId : string) : string :=
  toLowerCase (remove_braces rawId).

(** Every character of [s] satisfies [p]. *)
Fixpoint string_forallb (p : ascii -> bool) (s : string) : bool :=
  match s with
  | EmptyString => true
  | String c r => p c && string_forallb p r
  end.

(** Neither a curly brace nor an upper-case letter. *)
Definition normal_char (c : ascii) : bool :=
  negb (is_brace c) && negb (is_upper c).

(** [control.getGrid()]: a control that is not a grid has no such method. *)
Definition getGrid (control : XrmControl) : M XrmGrid :=
  match ctlGrid control with
  | Some g => ret g
  | None => throw TypeError
  end.

Definition getRecordCount (subgridName : string) : M (option Z) :=
  run waitForXrmReady ;;
  do control <- getControl subgridName ;;
  match control with
  | None => ret None
  | Some control =>
      do grid <- getGrid control ;;
      ret (Some (gridTotalRecordCount grid))
  end.

Definition getVisibleRecordCount (subgridName : string) : M (option Z) :=
  run waitForXrmReady ;;
  do control <- getControl subgridName ;;
  match control with
  | None => ret None
  | Some control =>
      do grid <- getGrid control ;;
      ret (Some (Z.of_nat (length (gridRows grid))))
  end.

(** [s.split(sep)[0]]: the part of [s] before the first occurrence of
    [sep], all of [s] when there is none. *)
Fixpoint before_first (sep s : string) : string :=
  if String.prefix sep s then EmptyString
  else match s with
       | EmptyString => EmptyString
       | String c r => String c (before_first sep r)
       end.

Definition entityFormUrl (url entityType id : string) : string :=
  before_first "/main.aspx" url +:+ "/main.aspx?etn=" +:+ entityType
    +:+ "&id=" +:+ id +:+ "&pagetype=entityrecord".

(** The record is looked up and its form is navigated to: the page is
    then the form the application displays at the record's URL.
    [rows.get(position)] yields nothing for a negative position, and
    reading a row off nothing is a TypeError. *)
Definition openNthRecord (subgridName : string) (recordNumber : Z)
    : M (string * string) :=
  run waitForXrmReady ;;
  do recordReference <-
     (do control <- getControl subgridName ;;
      match control with
      | None => throw (SubgridNotFound subgridName)
      | Some control =>
          do grid <- getGrid control ;;
          let rows := gridRows grid in
          if (Z.of_nat (length rows) <=? recordNumber)%Z
          then throw (OutOfRange recordNumber (length rows))
          else match (if (recordNumber <? 0)%Z then None
                      else rows !! Z.to_nat recordNumber) with
               | Some row => ret (rowRefId row, rowEntityType row)
               | None => throw TypeError
               end
      end) ;;
  do w <- getWorld ;;
  run page_goto (entityFormUrl (pageUrl w) (snd recordReference) (fst recordReference)) ;;
  run waitForXrmReady ;;
  ret recordReference.

Definition getEntityName (subgridName : string) : M (option string) :=
  run waitForXrmReady ;;
  do control <- getControl subgridName ;;
  match control with
  | None => ret None
  | Some control =>
      match ctlGrid control with
      | Some g => ret (Some (gridEntityName g))
      | None => throw TypeError
      end
  end.

Definition refresh (subgridName : string) : M unit :=
  run waitForXrmReady ;;
  do control <- getControl subgridName ;;
  match control with
  | None => throw (SubgridNotFound subgridName)
  | Some control =>
      match ctlGrid control with
      | Some _ => emit (EvRefresh subgridName)
      | None => throw TypeError
      end
  end.

(** The [for] loop of [getRecordIds], pushing one identifier per row. *)
Fixpoint collectIds (rows : list GridRow) (ids : list string) : list string :=
  match rows with
  | [] => ids
  | row :: rest => collectIds rest (ids ++ [normalizeId (rowId row)])
  end.

Definition getRecordIds (subgridName : string) : M (list string) :=
  run waitForXrmReady ;;
  do control <- getControl subgridName ;;
  match control with
  | None => ret []
  | Some control =>
      do grid <- getGrid control ;;
      ret (collectIds (gridRows grid) [])
  end.

Definition isVisible (subgridName : string) : M bool :=
  run waitForXrmReady ;;
  do control <- getControl subgridName ;;
  match control with
  | None => ret false
  | Some control => ret (ctlVisible control)
  end.

End SubGrid.

(* ===================================================================== *)
(** ** [framework/components/Control.ts] *)
(* ===================================================================== *)

Module Control.

Record ControlState : Type := {
  isVisible : bool;
  isDisabled : bool
}.

Definition with_visible (v : bool) (c : XrmControl) : XrmControl :=
  {| ctlVisible := v; ctlDisabled := ctlDisabled c; ctlParent := ctlParent c;
     ctlLabel := ctlLabel c; ctlOptions := ctlOptions c; ctlGrid := ctlGrid c |}.
Definition with_disabled (d : bool) (c : XrmControl) : XrmControl :=
  {| ctlVisible := ctlVisible c; ctlDisabled := d; ctlParent := ctlParent c;
     ctlLabel := ctlLabel c; ctlOptions := ctlOptions c; ctlGrid := ctlGrid c |}.
Definition with_label (l : string) (c : XrmControl) : XrmControl :=
  {| ctlVisible := ctlVisible c; ctlDisabled := ctlDisabled c; ctlParent := ctlParent c;
     ctlLabel := l; ctlOptions := ctlOptions c; ctlGrid := ctlGrid c |}.

Definition get (controlName : string) : M ControlState :=
  run waitForXrmReady ;;
  do control <- getControl controlName ;;
  match control with
  | None => throw (ControlNotFound controlName)
  | Some control =>
      let visible :=
        ctlVisible control
        && match ctlParent control with
           | None => true
           | Some p => sectionVisible p
           end
        && match ctlParent control with
           | None => true
           | Some p =>
               match sectionParent p with
               | None => true
               | Some g => tabVisible g
               end
           end in
      ret {| isVisible := visible; isDisabled := ctlDisabled control |}
  end.

Definition getOptions (controlName : string) : M (list (Z * string)) :=
  run waitForXrmReady ;;
  do control <- getControl controlName ;;
  match control with
  | None => throw (ControlNotFound controlName)
  | Some control => ret (ctlOptions control)
  end.

Definition setVisible (controlName : string) (visible : bool) : M unit :=
  run waitForXrmReady ;;
  do control <- getControl controlName ;;
  match control with
  | None => throw (ControlNotFound controlName)
  | Some _ => host_alterControl controlName (with_visible visible)
  end.

Definition setDisabled (controlName : string) (disabled : bool) : M unit :=
  run waitForXrmReady ;;
  do control <- getControl controlName ;;
  match control with
  | None => throw (ControlNotFound controlName)
  | Some _ => host_alterControl controlName (with_disabled disabled)
  end.

Definition getLabel (controlName : string) : M string :=
  run waitForXrmReady ;;
  do control <- getControl controlName ;;
  match control with
  | None => throw (ControlNotFound controlName)
  | Some control => ret (ctlLabel control)
  end.

Definition setLabel (controlName label : string) : M unit :=
  run waitForXrmReady ;;
  do control <- getControl controlName ;;
  match control with
  | None => throw (ControlNotFound controlName)
  | Some _ => host_alterControl controlName (with_label label)
  end.

End Control.

(* ===================================================================== *)
(** ** Test-data factories *)
(* ===================================================================== *)

(** The payloads the factories build are plain JavaScript objects whose
    properties hold strings and numbers; a property list in insertion
    order stands for one. *)
Inductive JsonValue : Type :=
| JStr (s : string)
| JNum (n : Z).

Definition JsObject : Type := list (string * JsonValue).

(** [obj[k]] *)
Fixpoint obj_get (k : string) (o : JsObject) : option JsonValue :=
  match o with
  | [] => None
  | (k', v) :: r => if String.eqb k k' then Some v else obj_get k r
  end.

(** [obj[k] = v]: an existing property keeps its place, a new one goes last. *)
Fixpoint obj_set (k : string) (v : JsonValue) (o : JsObject) : JsObject :=
  match o with
  | [] => [(k, v)]
  | (k', v') :: r =>
      if String.eqb k k' then (k, v) :: r else (k', v') :: obj_set k v r
  end.

(** The object without its property [k]. *)
Definition obj_without (k : string) (o : JsObject) : JsObject :=
  List.filter (fun kv => negb (String.eqb k (fst kv))) o.

(** [if (cond) obj[k] = v], with [cond] and [v] computed together: [Some v]
    when the guard holds. *)
Definition assign_when (k : string) (guarded : option JsonValue) (o : JsObject)
    : JsObject :=
  match guarded with
  | Some v => obj_set k v o
  | None => o
  end.

(** [if (x) ... x ...] for an optional string: undefined and the empty
    string are falsy. *)
Definition truthy_string (x : option string) : option JsonValue :=
  match x with
  | Some s => if String.eqb s "" then None else Some (JStr s)
  | None => None
  end.

(** [if (x !== undefined) ... x ...] for an optional number. *)
Definition defined_number (x : option Z) : option JsonValue :=
  match x with
  | Some n => Some (JNum n)
  | None => None
  end.

(** [if (id) ... `/${collection}(${id})` ...]: the relative path of the
    target record, when the identifier is truthy. *)
Definition bind_path (collection : string) (id : option string) : option JsonValue :=
  match id with
  | Some i => if String.eqb i "" then None
              else Some (JStr ("/" +:+ collection +:+ "(" +:+ i +:+ ")"))
  | None => None
  end.

(** [x ? a : b] and [x || b] on an optional string. *)
Definition is_truthy (x : option string) : bool :=
  match x with
  | Some s => negb (String.eqb s "")
  | None => false
  end.

(** Template-literal rendering of an integral number. *)
Definition number_to_string (n : Z) : string := pretty n.

(** The successive readings of [Date.now()], in call order. *)
Definition Clock : Type := nat -> Z.

(** [getTimestamp()]: take the next reading. *)
Definition getTimestamp (c : Clock) : Z * Clock := (c O, fun k => c (S k)).

Module AccountFactory.

(** [interface CreateAccountOptions] *)
Record CreateAccountOptions : Type := {
  name : option string;
  phone : option string;
  secondaryPhone : option string;
  email : option string;
  website : option string;
  addressLine1 : option string;
  city : option string;
  state : option string;
  postalCode : option string;
  country : option string;
  industry : option Z;
  revenue : option Z;
  employees : option Z;
  description : option string;
  parentAccountId : option string;
  primaryContactId : option string
}.

(** [{}] *)
Definition no_options : CreateAccountOptions :=
  {| name := None; phone := None; secondaryPhone := None; email := None;
     website := None; addressLine1 := None; city := None; state := None;
     postalCode := None; country := None; industry := None; revenue := None;
     employees := None; description := None; parentAccountId := None;
     primaryContactId := None |}.

(** [{ ...options, name: n }] *)
Definition with_name (options : CreateAccountOptions) (n : string)
    : CreateAccountOptions :=
  {| name := Some n; phone := phone options;
     secondaryPhone := secondaryPhone options; email := email options;
     website := website options; addressLine1 := addressLine1 options;
     city := city options; state := state options;
     postalCode := postalCode options; country := country options;
     industry := industry options; revenue := revenue options;
     employees := employees options; description := description options;
     parentAccountId := parentAccountId options;
     primaryContactId := primaryContactId options |}.

Definition create (options : CreateAccountOptions) (clock : Clock)
    : JsObject * Clock :=
  let '(timestamp, clock) := getTimestamp clock in
  let accountData : JsObject :=
    [("name",
      JStr (if is_truthy (name options)
            then default "" (name options) +:+ " " +:+ number_to_string timestamp
            else "Test Account " +:+ number_to_string timestamp))] in
  let accountData := assign_when "telephone1" (truthy_string (phone options)) accountData in
  let accountData := assign_when "telephone2" (truthy_string (secondaryPhone options)) accountData in
  let accountData := assign_when "emailaddress1" (truthy_string (email options)) accountData in
  let accountData := assign_when "websiteurl" (truthy_string (website options)) accountData in
  let accountData := assign_when "address1_line1" (truthy_string (addressLine1 options)) accountData in
  let accountData := assign_when "address1_city" (truthy_string (city options)) accountData in
  let accountData := assign_when "address1_stateorprovince" (truthy_string (state options)) accountData in
  let accountData := assign_when "address1_postalcode" (truthy_string (postalCode options)) accountData in
  let accountData := assign_when "address1_country" (truthy_string (country options)) accountData in
  let accountData := assign_when "industrycode" (defined_number (industry options)) accountData in
  let accountData := assign_when "revenue" (defined_number (revenue options)) accountData in
  let accountData := assign_when "numberofemployees" (defined_number (employees options)) accountData in
  let accountData := assign_when "description" (truthy_string (description options)) accountData in
  let accountData :=
    assign_when "parentaccountid@odata.bind"
      (bind_path "accounts" (parentAccountId options)) accountData in
  let accountData :=
    assign_when "primarycontactid@odata.bind"
      (bind_path "contacts" (primaryContactId options)) accountData in
  (accountData, clock).

(** The [accountOptions] of iteration [i] of [createBulk]'s loop. *)
Definition bulk_options (options : CreateAccountOptions) (i : nat)
    : CreateAccountOptions :=
  with_name options
    (if is_truthy (name options)
     then default "" (name options) +:+ " " +:+ number_to_string (Z.of_nat i + 1)
     else "Bulk Test Account " +:+ number_to_string (Z.of_nat i + 1)).

(** The body of [createBulk]'s loop from index [i], with [fuel] iterations
    left. *)
Fixpoint createBulk_loop (fuel : nat) (i : nat) (options : CreateAccountOptions)
    (accounts : list JsObject) (clock : Clock) : list JsObject * Clock :=
  match fuel with
  | O => (accounts, clock)
  | S fuel' =>
      let '(account, clock) := create (bulk_options options i) clock in
      createBulk_loop fuel' (S i) options (accounts ++ [account]) clock
  end.

(** [for (let i = 0; i < count; i++)] runs [count] times, not at all for
    a count below one. *)
Definition createBulk (count : Z) (options : CreateAccountOptions) (clock : Clock)
    : list JsObject * Clock :=
  createBulk_loop (Z.to_nat count) 0 options [] clock.

End AccountFactory.

Module ContactFactory.

(** [interface CreateContactOptions] *)
Record CreateContactOptions : Type := {
  firstname : option string;
  lastname : option string;
  email : option string;
  phone : option string;
  mobile : option string;
  jobTitle : option string;
  description : option string;
  preferredContactMethod : option Z;
  accountId : option string
}.

Definition no_options : CreateContactOptions :=
  {| firstname := None; lastname := None; email := None; phone := None;
     mobile := None; jobTitle := None; description := None;
     preferredContactMethod := None; accountId := None |}.

(** [{ ...options, lastname: n }] *)
Definition with_lastname (options : CreateContactOptions) (n : string)
    : CreateContactOptions :=
  {| firstname := firstname options; lastname := Some n; email := email options;
     phone := phone options; mobile := mobile options;
     jobTitle := jobTitle options; description := description options;
     preferredContactMethod := preferredContactMethod options;
     accountId := accountId options |}.

Definition create (options : CreateContactOptions) (clock : Clock)
    : JsObject * Clock :=
  let '(timestamp, clock) := getTimestamp clock in
  let contactData : JsObject :=
    [("firstname",
      JStr (if is_truthy (firstname options)
            then default "" (firstname options) else "Test"));
     ("lastname",
      JStr (if is_truthy (lastname options)
            then default "" (lastname options) +:+ " " +:+ number_to_string timestamp
            else "Contact " +:+ number_to_string timestamp))] in
  let contactData := assign_when "emailaddress1" (truthy_string (email options)) contactData in
  let contactData := assign_when "telephone1" (truthy_string (phone options)) contactData in
  let contactData := assign_when "mobilephone" (truthy_string (mobile options)) contactData in
  let contactData := assign_when "jobtitle" (truthy_string (jobTitle options)) contactData in
  let contactData := assign_when "description" (truthy_string (description options)) contactData in
  let contactData :=
    assign_when "preferredcontactmethodcode"
      (defined_number (preferredContactMethod options)) contactData in
  let contactData :=
    assign_when "parentcustomerid_account@odata.bind"
      (bind_path "accounts" (accountId options)) contactData in
  (contactData, clock).

(** The [contactOptions] of iteration [i] of [createBulk]'s loop. *)
Definition bulk_options (options : CreateContactOptions) (i : nat)
    : CreateContactOptions :=
  with_lastname options
    (if is_truthy (lastname options)
     then default "" (lastname options) +:+ " " +:+ number_to_string (Z.of_nat i + 1)
     else "Bulk Contact " +:+ number_to_string (Z.of_nat i + 1)).

Fixpoint createBulk_loop (fuel : nat) (i : nat) (options : CreateContactOptions)
    (contacts : list JsObject) (clock : Clock) : list JsObject * Clock :=
  match fuel with
  | O => (contacts, clock)
  | S fuel' =>
      let '(contact, clock) := create (bulk_options options i) clock in
      createBulk_loop fuel' (S i) options (contacts ++ [contact]) clock
  end.

Definition createBulk (count : Z) (options : CreateContactOptions) (clock : Clock)
    : list JsObject * Clock :=
  createBulk_loop (Z.to_nat count) 0 options [] clock.

End ContactFactory.

(* ===================================================================== *)
(** ** The specification's reading of editability *)
(* ===================================================================== *)





(* ===================================================================== *)
(** ** A sample account form *)
(* ===================================================================== *)

Definition general_tab : XrmTab := {| tabVisible := true |}.
Definition summary_section : XrmSection :=
  {| sectionVisible := true; sectionParent := Some general_tab |}.
Definition collapsed_section : XrmSection :=
  {| sectionVisible := false; sectionParent := Some general_tab |}.

(** A section that is shown, on a tab that is not. *)
Definition hidden_tab : XrmTab := {| tabVisible := false |}.
Definition notes_section : XrmSection :=
  {| sectionVisible := true; sectionParent := Some hidden_tab |}.

Definition field_control (label : string) (disabled : bool) (parent : XrmSection)
    : XrmControl :=
  {| ctlVisible := true; ctlDisabled := disabled; ctlParent := Some parent;
     ctlLabel := label; ctlOptions := []; ctlGrid := None |}.

Definition contacts_grid : XrmGrid :=
  {| gridEntityName := "contact";
     gridRows :=
       [ {| rowId := "{A1B2C3D4-0000-4000-8000-00000000000A}";
            rowRefId := "{A1B2C3D4-0000-4000-8000-00000000000A}";
            rowEntityType := "contact" |};
         {| rowId := "{A1B2C3D4-0000-4000-8000-00000000000B}";
            rowRefId := "{A1B2C3D4-0000-4000-8000-00000000000B}";
            rowEntityType := "contact" |} ];
     gridTotalRecordCount := 2 |}.

Definition text_attribute (value format control : string) : XrmAttribute :=
  {| attrType := "string"; attrValue := VStr value; attrFormat := Some format;
     attrRequiredLevel := "none"; attrIsDirty := false; attrControls := [control] |}.

(** The form of a contact record, and an application that displays it at
    the URL of the second contact of the sample grid and an empty page
    elsewhere. *)
Definition contact_form : Form :=
  {| formAttributes :=
       list_to_map [ ("fullname", text_attribute "Jane Doe" "text" "fullname") ];
     formControls :=
       list_to_map [ ("fullname", field_control "Full Name" false summary_section) ] |}.

Definition empty_form : Form := {| formAttributes := ∅; formControls := ∅ |}.

Definition contoso_application (url : string) : Form :=
  if String.eqb url
       "https://contoso.crm.dynamics.com/main.aspx?etn=contact&id={A1B2C3D4-0000-4000-8000-00000000000B}&pagetype=entityrecord"
  then contact_form
  else empty_form.

Definition account_form : World :=
  {| attributes :=
       list_to_map
         [ ("name", text_attribute "Contoso" "text" "name");
           ("telephone1", text_attribute "+1-555-0100" "phone" "telephone1");
           ("emailaddress1", text_attribute "info@contoso.com" "email" "emailaddress1");
           ("fax", text_attribute "" "text" "fax");
           ("description", text_attribute "" "textarea" "description");
           ("createdon",
            {| attrType := "datetime"; attrValue := VNull; attrFormat := Some "datetime";
               attrRequiredLevel := "none"; attrIsDirty := false;
               attrControls := ["createdon"] |}) ];
     controls :=
       list_to_map
         [ ("name", field_control "Account Name" false summary_section);
           ("telephone1", field_control "Main Phone" true summary_section);
           ("emailaddress1", field_control "Email" false collapsed_section);
           ("fax", field_control "Fax" false summary_section);
           ("description", field_control "Description" false notes_section);
           ("createdon", field_control "Created On" false summary_section);
           ("Contacts",
            {| ctlVisible := true; ctlDisabled := false; ctlParent := Some summary_section;
               ctlLabel := "Contacts"; ctlOptions := []; ctlGrid := Some contacts_grid |}) ];
     pageUrl := "https://contoso.crm.dynamics.com/main.aspx?appid=1&pagetype=entityrecord";
     trace := [];
     served := contoso_application |}.

(** Options whose parent-account identifier is given, but empty. *)
Definition empty_parent_options : AccountFactory.CreateAccountOptions :=
  {| AccountFactory.name := Some "Child Account";
     AccountFactory.phone := Some ""; AccountFactory.secondaryPhone := None;
     AccountFactory.email := None; AccountFactory.website := None;
     AccountFactory.addressLine1 := None; AccountFactory.city := Some "London";
     AccountFactory.state := None; AccountFactory.postalCode := None;
     AccountFactory.country := None; AccountFactory.industry := Some 0%Z;
     AccountFactory.revenue := None; AccountFactory.employees := None;
     AccountFactory.description := None;
     AccountFactory.parentAccountId := Some "";
     AccountFactory.primaryContactId := Some "c0ffee00-0000-4000-8000-000000000001" |}.

Definition linked_contact_options : ContactFactory.CreateContactOptions :=
  {| ContactFactory.firstname := Some "Jane"; ContactFactory.lastname := Some "Doe";
     ContactFactory.email := Some ""; ContactFactory.phone := None;
     ContactFactory.mobile := None; ContactFactory.jobTitle := None;
     ContactFactory.description := None;
     ContactFactory.preferredContactMethod := Some 0%Z;
     ContactFactory.accountId := Some "acc00000-0000-4000-8000-000000000002" |}.

(** A clock that advances one millisecond per reading. *)
Definition ticking_clock : Clock := fun k => (1700000000000 + Z.of_nat k)%Z.

(* ===================================================================== *)
(** ** Payload shapes: [interface AccountData], [interface ContactData] *)
(* ===================================================================== *)

(** The property names of [AccountData], in the order of the interface,
    which is also the order in which [AccountFactory.create] assigns
    them. *)
Definition account_data_keys : list string :=
  [ "name"; "telephone1"; "telephone2"; "emailaddress1"; "websiteurl";
    "address1_line1"; "address1_city"; "address1_stateorprovince";
    "address1_postalcode"; "address1_country"; "industrycode"; "revenue";
    "numberofemployees"; "description"; "parentaccountid@odata.bind";
    "primarycontactid@odata.bind" ].

(** The property names of [ContactData], in the order
    [ContactFactory.create] assigns them. *)
Definition contact_data_keys : list string :=
  [ "firstname"; "lastname"; "emailaddress1"; "telephone1"; "mobilephone";
    "jobtitle"; "description"; "preferredcontactmethodcode";
    "parentcustomerid_account@odata.bind" ].

(** [Object.keys(obj)] *)
Definition obj_keys (o : JsObject) : list string := map fst o.

(** The container test shared by [Control.get] and [Attribute.setValue]:
    [(!control.getParent() || control.getParent().getVisible()) &&
     (!control.getParent() || !control.getParent().getParent()
      || control.getParent().getParent().getVisible())]. *)
Definition parents_visible (control : XrmControl) : bool :=
  match ctlParent control with
  | None => true
  | Some p => sectionVisible p
  end
  && match ctlParent control with
     | None => true
     | Some p =>
         match sectionParent p with
         | None => true
         | Some g => tabVisible g
         end
     end.

(** The [editable] flag [Attribute.setValue] computes inside the page from
    the merged settings and the attribute's controls. *)
Definition editable (w : World) (attribute : XrmAttribute)
    (opts : Attribute.SetValueSettings) : bool :=
  Attribute.forced opts
  || existsb Attribute.control_editable
       (omap (fun n => controls w !! n) (attrControls attribute)).

(** The value [Attribute.setValue] hands to the page for [value]:
    [isDate ? value.toISOString() : value], for a value that has an ISO
    string. *)
Definition encoded (value : JsValue) : JsValue :=
  match value with
  | VDate (Some t) => VStr (JsDate.toISOString t)
  | _ => value
  end.

(** What [Attribute.setValue] called with [value] has the host attribute
    set to, on the page [w]: the encoded value, rebuilt as a date when the
    attribute is of type ['datetime']. *)
Definition hostValue (w : World) (attributeName : string) (value : JsValue)
    : JsValue :=
  match attributes w !! attributeName with
  | Some a => Attribute.finalValue a (encoded value)
  | None => VUndefined
  end.

(** The host calls [Attribute.setValue] makes for one entry of a mapping,
    in order: the write, the change notification, the pause. *)
Definition entry_events (settings : Attribute.SettingsArg) (w : World)
    (entry : string * JsValue) : list Event :=
  [ EvSetValue (fst entry) (hostValue w (fst entry) (snd entry));
    EvFireOnChange (fst entry);
    EvWaitForTimeout (Attribute.settleTime_or_500 (Attribute.safeSettings settings)) ].

(* ===================================================================== *)
(** ** [tests/mda/test-config.ts] *)
(* ===================================================================== *)

Module TestConfiguration.

(** [interface TestConfig] *)
Record TestConfig : Type := {
  mdaUrl : string;
  username : string;
  password : string
}.

(** [process.env.NAME || '']: a variable that is unset reads as the empty
    string, as does one that is set to it. *)
Definition env_or_empty (env : gmap string string) (name : string) : string :=
  match env !! name with
  | Some v => if String.eqb v "" then "" else v
  | None => ""
  end.

Definition testConfig (env : gmap string string) : TestConfig :=
  {| mdaUrl := env_or_empty env "MDA_URL";
     username := env_or_empty env "O365_USERNAME";
     password := env_or_empty env "O365_PASSWORD" |}.

(** [if (!value) missing.push(name)] *)
Definition push_if_empty (value name : string) (missing : list string)
    : list string :=
  if String.eqb value "" then missing ++ [name] else missing.

(** [missing.join(sep)] *)
Fixpoint join (sep : string) (l : list string) : string :=
  match l with
  | [] => ""
  | x :: rest =>
      match rest with
      | [] => x
      | _ :: _ => x +:+ sep +:+ join sep rest
      end
  end.

Definition newline : string := String (ascii_of_nat 10) EmptyString.

(** The [missing] array [validateConfig] builds. *)
Definition missing_variables (config : TestConfig) : list string :=
  let missing := [] in
  let missing := push_if_empty (mdaUrl config) "MDA_URL" missing in
  let missing := push_if_empty (username config) "O365_USERNAME" missing in
  let missing := push_if_empty (password config) "O365_PASSWORD" missing in
  missing.

(** [validateConfig()]: returns, or throws an [Error] with the message on
    the right. *)
Definition validateConfig (config : TestConfig) : unit + string :=
  let missing := missing_variables config in
  if (0 <? length missing)%nat
  then inr ("Missing required environment variables: " +:+ join ", " missing
            +:+ newline +:+ "Please check your .env file.")
  else inl tt.

End TestConfiguration.

(* ===================================================================== *)
(** ** The clean-up loop of [tests/mda/account-factory-demo.spec.ts] *)
(* ===================================================================== *)

Module CleanupLoop.



Section WithWebApi.

(** The Web API client ([framework/core/WebApi], not among the sources)
    is taken as given: [deleteRecord entityType id] acts on the remote
    store and either resolves ([None]) or rejects with an error. *)
Variable Remote : Type.
Variable deleteRecord : string -> string -> Remote -> option string * Remote.



End WithWebApi.

End CleanupLoop.

(* ===================================================================== *)
(** * Properties *)
(* ===================================================================== *)

Section JsDateFacts.
Import JsDate.
Local Open Scope Z_scope.

Lemma digit_val_char d : 0 <= d <= 9 -> digit_val (digit_char d) = Some d.
Proof.
  intros H.
  assert (d = 0 \/ d = 1 \/ d = 2 \/ d = 3 \/ d = 4 \/ d = 5 \/ d = 6
          \/ d = 7 \/ d = 8 \/ d = 9) as Hd by lia.
  repeat (destruct Hd as [-> | Hd]; [reflexivity |]). subst d. reflexivity.
Qed.

Lemma digit_char_not_sign d :
  0 <= d <= 9 ->
  Ascii.eqb (digit_char d) "+" = false /\ Ascii.eqb (digit_char d) "-" = false.
Proof.
  intros H.
  assert (d = 0 \/ d = 1 \/ d = 2 \/ d = 3 \/ d = 4 \/ d = 5 \/ d = 6
          \/ d = 7 \/ d = 8 \/ d = 9) as Hd by lia.
  repeat (destruct Hd as [-> | Hd]; [split; reflexivity |]). subst d. split; reflexivity.
Qed.

Lemma read_digits_pad w : forall acc n rest,
  0 <= n < 10 ^ Z.of_nat w ->
  read_digits w acc (pad_digits w n ++ rest) = Some (acc * 10 ^ Z.of_nat w + n, rest).
Proof.
  induction w as [| w IH]; intros acc n rest Hn.
  - simpl in *. f_equal. f_equal. lia.
  - cbn [pad_digits read_digits app].
    assert (Hp : 0 < 10 ^ Z.of_nat w) by (apply Z.pow_pos_nonneg; lia).
    assert (Hs : 10 ^ Z.of_nat (S w) = 10 * 10 ^ Z.of_nat w).
    { rewrite Nat2Z.inj_succ, Z.pow_succ_r by lia. reflexivity. }
    rewrite Hs in *.
    set (p := 10 ^ Z.of_nat w) in *.
    assert (Hq : 0 <= n / p <= 9).
    { split; [apply Z.div_pos; lia |].
      assert (n / p < 10); [apply Z.div_lt_upper_bound; lia | lia]. }
    rewrite digit_val_char by exact Hq.
    rewrite IH by (apply Z.mod_pos_bound; lia).
    f_equal. f_equal.
    pose proof (Z.div_mod n p ltac:(lia)). lia.
Qed.

Lemma read_year_chars y rest :
  -999999 <= y <= 999999 ->
  read_year (year_chars y ++ rest) = Some (y, rest).
Proof.
  intros Hy. unfold year_chars.
  destruct ((0 <=? y) && (y <=? 9999)) eqn:E.
  - apply andb_true_iff in E as [E1 E2]. apply Z.leb_le in E1, E2.
    pose proof (read_digits_pad 4 0 y rest ltac:(simpl; lia)) as R.
    cbn [pad_digits app] in *. unfold read_year.
    assert (Hq : 0 <= y / 10 ^ Z.of_nat 3 <= 9).
    { split; [apply Z.div_pos; simpl; lia |].
      assert (y / 10 ^ Z.of_nat 3 < 10); [apply Z.div_lt_upper_bound; simpl; lia | lia]. }
    destruct (digit_char_not_sign _ Hq) as [-> ->].
    rewrite R. repeat f_equal; lia.
  - destruct (y <? 0) eqn:Neg.
    + apply Z.ltb_lt in Neg. cbn [app read_year]. cbn [Ascii.eqb Bool.eqb].
      rewrite read_digits_pad by (simpl; lia).
      destruct (0 * 10 ^ Z.of_nat 6 + Z.abs y =? 0) eqn:Z0.
      * apply Z.eqb_eq in Z0. lia.
      * repeat f_equal; lia.
    + apply Z.ltb_ge in Neg. cbn [app read_year]. cbn [Ascii.eqb Bool.eqb].
      rewrite read_digits_pad by (simpl; lia).
      repeat f_equal; lia.
Qed.


Lemma year_of_era_spec doe yoe doy :
  0 <= doe < 146097 ->
  year_of_era doe = (yoe, doy) ->
  0 <= yoe < 400 /\ 0 <= doy <= 365
  /\ yoe * 365 + yoe / 4 - yoe / 100 + doy = doe.
Proof.
  intros Hd. unfold year_of_era. intros E. inversion E as [[Hy Hdoy]]. clear E.
  set (c := Z.min (doe / 36524) 3) in *.
  set (doc := doe - c * 36524) in *.
  set (q := doc / 1461) in *.
  set (doq := doc - q * 1461) in *.
  set (yq := Z.min (doq / 365) 3) in *.
  assert (Hc : 0 <= c <= 3 /\ 0 <= doc <= 36524).
  { subst doc c. Z.div_mod_to_equations. lia. }
  assert (Hq : 0 <= q <= 24 /\ 0 <= doq <= 1460).
  { subst doq q. Z.div_mod_to_equations. lia. }
  assert (Hyq : 0 <= yq <= 3 /\ 0 <= doq - yq * 365 <= 365).
  { subst yq. Z.div_mod_to_equations. lia. }
  assert (H4 : (c * 100 + q * 4 + yq) / 4 = c * 25 + q).
  { symmetry. apply (Z.div_unique _ _ _ yq); lia. }
  assert (H100 : (c * 100 + q * 4 + yq) / 100 = c).
  { symmetry. apply (Z.div_unique _ _ _ (q * 4 + yq)); lia. }
  rewrite H4, H100. subst doq doc. lia.
Qed.

Lemma month_day_spec doy m d :
  0 <= doy <= 365 ->
  month_day doy = (m, d) ->
  1 <= m <= 12 /\ 1 <= d <= 31 /\ day_of_year m d = doy.
Proof.
  intros Hd. unfold month_day, day_of_year. intros E. inversion E as [[Hm Hdd]]. clear E.
  set (mp := (5 * doy + 2) / 153) in *.
  assert (Hmp : 0 <= mp <= 11) by (subst mp; Z.div_mod_to_equations; lia).
  assert (Hdd' : 1 <= d <= 31) by (subst d mp; Z.div_mod_to_equations; lia).
  destruct (mp <? 10) eqn:E10.
  - apply Z.ltb_lt in E10.
    assert ((2 <? mp + 3) = true) as -> by (apply Z.ltb_lt; lia).
    replace (mp + 3 - 3) with mp by lia. lia.
  - apply Z.ltb_ge in E10.
    assert ((2 <? mp - 9) = false) as -> by (apply Z.ltb_ge; lia).
    replace (mp - 9 + 9) with mp by lia. lia.
Qed.

Lemma civil_from_days_spec z y m d :
  civil_from_days z = (y, m, d) ->
  days_from_civil y m d = z /\ 1 <= m <= 12 /\ 1 <= d <= 31
  /\ 400 * ((z + 719468) / 146097) <= y <= 400 * ((z + 719468) / 146097) + 400.
Proof.
  unfold civil_from_days.
  set (era := (z + 719468) / 146097).
  set (doe := (z + 719468) mod 146097).
  assert (Hdoe : 0 <= doe < 146097) by (subst doe; apply Z.mod_pos_bound; lia).
  destruct (year_of_era doe) as [yoe doy] eqn:Ey.
  destruct (month_day doy) as [m' d'] eqn:Em.
  intros [= Hy Hm' Hd']. subst m' d'.
  destruct (year_of_era_spec _ _ _ Hdoe Ey) as (Hyoe & Hdoy & Hsum).
  destruct (month_day_spec _ _ _ Hdoy Em) as (Hm & Hd & Hdy).
  repeat split; try lia.
  - unfold days_from_civil. rewrite Hdy.
    assert (Hy' : (if m <=? 2 then y - 1 else y) = yoe + era * 400).
    { rewrite <- Hy. destruct (m <=? 2); lia. }
        rewrite Hy'.
    assert (Hdiv : (yoe + era * 400) / 400 = era).
    { symmetry. apply (Z.div_unique _ _ _ yoe); lia. }
    assert (Hmod : (yoe + era * 400) mod 400 = yoe).
    { symmetry. apply (Z.mod_unique _ _ era); lia. }
    rewrite Hdiv, Hmod, Hsum.
    pose proof (Z.div_mod (z + 719468) 146097 ltac:(lia)). subst era doe. lia.
  - rewrite <- Hy. destruct (m <=? 2); lia.
  - rewrite <- Hy. destruct (m <=? 2); lia.
Qed.


Lemma expect_cons c l : expect c (c :: l) = Some l.
Proof. unfold expect. rewrite Ascii.eqb_refl. reflexivity. Qed.

(** The transport encoding loses nothing: parsing the ISO string of a
    valid time value gives that time value back, to the millisecond. *)
Lemma parse_toISOString t : valid_time t -> parse (toISOString t) = Some t.
Proof.
  unfold valid_time, maxTime. intros Ht.
  unfold parse, toISOString. rewrite list_ascii_of_string_of_list_ascii.
  unfold iso_chars.
  set (day := t / msPerDay). set (tod := t mod msPerDay).
  assert (Htod : 0 <= tod < 86400000) by (apply Z.mod_pos_bound; reflexivity).
  assert (Hday : -100000000 <= day <= 100000000).
  { subst day. unfold msPerDay. Z.div_mod_to_equations. lia. }
  assert (Ht' : t = day * 86400000 + tod).
  { subst day tod. unfold msPerDay. pose proof (Z.div_mod t 86400000 ltac:(lia)). lia. }
  destruct (civil_from_days day) as [[y m] d] eqn:E.
  destruct (civil_from_days_spec _ _ _ _ E) as (Hdays & Hm & Hd & Hy).
  assert (Hy' : -999999 <= y <= 999999).
  { revert Hy. Z.div_mod_to_equations. lia. }
  unfold parse_chars.
  rewrite read_year_chars by exact Hy'. cbn [mbind option_bind].
  rewrite expect_cons. cbn [mbind option_bind].
  rewrite read_digits_pad by (simpl; lia). cbn [mbind option_bind].
  rewrite expect_cons. cbn [mbind option_bind].
  rewrite read_digits_pad by (simpl; lia). cbn [mbind option_bind].
  rewrite expect_cons. cbn [mbind option_bind].
  rewrite read_digits_pad by (simpl; Z.div_mod_to_equations; lia). cbn [mbind option_bind].
  rewrite expect_cons. cbn [mbind option_bind].
  rewrite read_digits_pad by (simpl; Z.div_mod_to_equations; lia). cbn [mbind option_bind].
  rewrite expect_cons. cbn [mbind option_bind].
  rewrite read_digits_pad by (simpl; Z.div_mod_to_equations; lia). cbn [mbind option_bind].
  rewrite expect_cons. cbn [mbind option_bind].
  rewrite (read_digits_pad 3 0 _ ["Z"%char]) by (simpl; Z.div_mod_to_equations; lia).
  cbn [mbind option_bind].
  rewrite expect_cons. cbn [mbind option_bind].
  rewrite !Z.mul_0_l, !Z.add_0_l.
  assert (Hchk : (1 <=? m) && (m <=? 12) && (1 <=? d) && (d <=? 31)
                 && (tod / 3600000 <=? 23) && (tod / 60000 mod 60 <=? 59)
                 && (tod / 1000 mod 60 <=? 59) = true).
  { repeat (apply andb_true_intro; split); apply Z.leb_le;
      try lia; Z.div_mod_to_equations; lia. }
  rewrite Hchk, Hdays.
  assert (Hsum : day * msPerDay + tod / 3600000 * 3600000 + tod / 60000 mod 60 * 60000
                 + tod / 1000 mod 60 * 1000 + tod mod 1000 = t).
  { rewrite Ht'. unfold msPerDay. clearbody day tod. clear - Htod. Z.div_mod_to_equations. lia. }
  rewrite Hsum.
  assert (valid_timeb t = true) as ->; [| reflexivity].
  unfold valid_timeb, maxTime. apply andb_true_intro; split; apply Z.leb_le; lia.
Qed.

End JsDateFacts.

Section ObjectFacts.

Lemma obj_get_set k k' v o :
  obj_get k (obj_set k' v o) = if String.eqb k k' then Some v else obj_get k o.
Proof.
  induction o as [| [k0 v0] o IH]; cbn [obj_set obj_get].
  - reflexivity.
  - destruct (String.eqb k' k0) eqn:E0; cbn [obj_get].
    + apply String.eqb_eq in E0. subst k0. destruct (String.eqb k k'); reflexivity.
    + destruct (String.eqb k k0) eqn:E1.
      * apply String.eqb_eq in E1. subst k0.
        rewrite String.eqb_sym, E0. reflexivity.
      * exact IH.
Qed.

Lemma obj_get_assign_when k k' g o :
  obj_get k (assign_when k' g o)
  = if String.eqb k k' then match g with Some v => Some v | None => obj_get k o end
    else obj_get k o.
Proof.
  destruct g as [v |]; cbn [assign_when].
  - rewrite obj_get_set. destruct (String.eqb k k'); reflexivity.
  - destruct (String.eqb k k'); reflexivity.
Qed.

Lemma obj_get_assign_when_ne k k' g o :
  String.eqb k k' = false -> obj_get k (assign_when k' g o) = obj_get k o.
Proof. intros H. rewrite obj_get_assign_when, H. reflexivity. Qed.

Lemma obj_get_assign_when_eq k g o :
  obj_get k (assign_when k g o)
  = match g with Some v => Some v | None => obj_get k o end.
Proof. rewrite obj_get_assign_when, String.eqb_refl. reflexivity. Qed.

Lemma obj_without_set k k' v o :
  String.eqb k k' = false ->
  obj_without k (obj_set k' v o) = obj_set k' v (obj_without k o).
Proof.
  intros Hne. unfold obj_without.
  induction o as [| [k0 v0] o IH]; cbn [obj_set List.filter fst].
  - rewrite Hne. reflexivity.
  - destruct (String.eqb k' k0) eqn:E0.
    + apply String.eqb_eq in E0. subst k0.
      cbn [List.filter fst]. rewrite Hne. cbn [negb obj_set].
      rewrite String.eqb_refl. reflexivity.
    + cbn [List.filter fst].
      destruct (String.eqb k k0); cbn [negb obj_set]; rewrite ?E0, IH; reflexivity.
Qed.

Lemma obj_without_assign_when k k' g o :
  String.eqb k k' = false ->
  obj_without k (assign_when k' g o) = assign_when k' g (obj_without k o).
Proof.
  intros Hne. destruct g; cbn [assign_when]; [apply obj_without_set, Hne | reflexivity].
Qed.

End ObjectFacts.

Section DecimalFacts.

(** No character of the string is a space. *)
Lemma pretty_N_go_no_space x : forall s,
  SubGrid.string_forallb (fun c => negb (Ascii.eqb c " ")) s = true ->
  SubGrid.string_forallb (fun c => negb (Ascii.eqb c " ")) (pretty_N_go x s) = true.
Proof.
  induction (N.lt_wf_0 x) as [x _ IH]; intros s Hs.
  assert (x = 0 \/ 0 < x)%N as [-> | Hx] by lia.
  - rewrite pretty_N_go_0. exact Hs.
  - rewrite pretty_N_go_step by exact Hx. apply IH.
    + apply N.div_lt; [exact Hx | reflexivity].
    + cbn [SubGrid.string_forallb]. rewrite Hs, andb_true_r.
      unfold pretty_N_char. repeat case_match; reflexivity.
Qed.

Lemma number_to_string_no_space n :
  (0 <= n)%Z ->
  SubGrid.string_forallb (fun c => negb (Ascii.eqb c " ")) (number_to_string n) = true.
Proof.
  intros Hn. unfold number_to_string, pretty, pretty_Z.
  destruct n as [| p | p]; [reflexivity | | lia].
  unfold pretty, pretty_positive, pretty, pretty_N.
  case_decide; [reflexivity |]. apply pretty_N_go_no_space. reflexivity.
Qed.

(** Two space-free strings followed by a space and anything: the first
    space marks where they end. *)
Lemma split_at_space a : forall b x y,
  SubGrid.string_forallb (fun c => negb (Ascii.eqb c " ")) a = true ->
  SubGrid.string_forallb (fun c => negb (Ascii.eqb c " ")) b = true ->
  a +:+ " " +:+ x = b +:+ " " +:+ y -> a = b.
Proof.
  induction a as [| c a IH]; intros [| d b] x y Ha Hb E; cbn in *.
  - reflexivity.
  - injection E as E1 _. subst d. rewrite Ascii.eqb_refl in Hb. discriminate.
  - injection E as E1 _. subst c. rewrite Ascii.eqb_refl in Ha. discriminate.
  - injection E as -> E.
    apply andb_true_iff in Ha as [_ Ha]. apply andb_true_iff in Hb as [_ Hb].
    f_equal. eapply IH; eassumption.
Qed.

Lemma app_cancel_l (p : string) : forall a b, p +:+ a = p +:+ b -> a = b.
Proof. induction p as [| c p IH]; intros a b E; cbn in E; [exact E | injection E; auto]. Qed.

Lemma app_assoc_string (a b c : string) : (a +:+ b) +:+ c = a +:+ b +:+ c.
Proof.
  induction a as [| x a IH]; [reflexivity |].
  change (String x ((a +:+ b) +:+ c) = String x (a +:+ b +:+ c)).
  f_equal. exact IH.
Qed.

Lemma numbered_name_inj base (i j : Z) (x y : string) :
  (0 <= i)%Z -> (0 <= j)%Z ->
  base +:+ " " +:+ number_to_string i +:+ " " +:+ x
  = base +:+ " " +:+ number_to_string j +:+ " " +:+ y ->
  i = j.
Proof.
  intros Hi Hj E. apply app_cancel_l in E. injection E as E.
  apply split_at_space in E; try (apply number_to_string_no_space; assumption).
  unfold number_to_string in E. exact (pretty_Z_inj _ _ E).
Qed.

End DecimalFacts.

Section AttributeFacts.
Import Attribute.

(** A failing [setValue] has not touched the page: every throw precedes
    the write. *)
Lemma setValue_err_unchanged name value settings w e w' :
  setValue name value settings w = (Err e, w') -> w' = w.
Proof.
  cbv [setValue setValue_inPage bind waitForXrmReady ret getAttribute
       attribute_controls throw host_setValue emit waitForTimeout].
  destruct value as [| | b | n | s | [t |]]; cbn [isDateObject js_toISOString];
    cbv [ret throw]; try (intros [= _ <-]; reflexivity);
    (destruct (attributes w !! name) as [a |]; [| intros [= _ <-]; reflexivity]);
    (destruct (negb _); [intros [= _ <-]; reflexivity | discriminate]).
Qed.

(** What a [setValue] that returned has done: the attribute existed, the
    gate was open, and the page differs by one write and three log
    entries. *)
Lemma setValue_ok_inv name value settings w w' :
  setValue name value settings w = (Ok tt, w') ->
  exists a val,
    attributes w !! name = Some a
    /\ (isDateObject value = false -> val = value)
    /\ (forall t, value = VDate (Some t) -> val = VStr (JsDate.toISOString t))
    /\ forced (safeSettings settings)
       || existsb control_editable (omap (fun n => controls w !! n) (attrControls a)) = true
    /\ w' = {| attributes := alter (fun x => with_value x (finalValue a val)) name (attributes w);
               controls := controls w; pageUrl := pageUrl w;
               trace := trace w ++ [EvSetValue name (finalValue a val); EvFireOnChange name;
                                    EvWaitForTimeout (settleTime_or_500 (safeSettings settings))];
               served := served w |}.
Proof.
  cbv [setValue setValue_inPage bind waitForXrmReady ret getAttribute
       attribute_controls throw host_setValue emit waitForTimeout].
  destruct value as [| | b | n | s | [t |]]; cbn [isDateObject js_toISOString];
    cbv [ret throw]; try discriminate;
    (destruct (attributes w !! name) as [a |]; [| discriminate]);
    (destruct (forced (safeSettings settings)
               || existsb control_editable (omap (fun n => controls w !! n) (attrControls a)))
       eqn:E; cbn [negb]; [| discriminate]);
    intros [= <-]; cbn [attributes controls pageUrl trace served];
    eexists a, _; (split; [reflexivity |]);
    (split; [intros Hnd; first [discriminate Hnd | reflexivity] |]);
    (split; [intros t' Ht'; first [discriminate Ht' | injection Ht' as ->; reflexivity] |]);
    (split; [first [exact E | reflexivity] |]); rewrite <- !app_assoc; reflexivity.
Qed.

(** The same, with the value that crossed into the page named. *)
Lemma setValue_ok_encoded name value settings w w' :
  setValue name value settings w = (Ok tt, w') ->
  exists a,
    attributes w !! name = Some a
    /\ w' = {| attributes := alter (fun x => with_value x (hostValue w name value))
                               name (attributes w);
               controls := controls w; pageUrl := pageUrl w;
               trace := trace w ++ entry_events settings w (name, value);
               served := served w |}.
Proof.
  intros H.
  destruct (setValue_ok_inv _ _ _ _ _ H) as (a & val & Ha & Hplain & Hdate & _ & ->).
  exists a. split; [exact Ha |].
  assert (Hval : val = encoded value).
  { destruct value as [| | b | n | s | [t |]];
      try (apply Hplain; reflexivity).
    - apply (Hdate t). reflexivity.
    - revert H. cbv [setValue bind waitForXrmReady ret]. cbn [isDateObject js_toISOString].
      cbv [throw]. discriminate. }
  unfold entry_events, hostValue. cbn [fst snd]. rewrite Ha, Hval. reflexivity.
Qed.

Lemma lookup_after_write (m : gmap string XrmAttribute) name a v :
  m !! name = Some a ->
  alter (fun x => with_value x v) name m !! name = Some (with_value a v).
Proof.
  intros H. rewrite lookup_alter, H. case_decide; [reflexivity | congruence].
Qed.



(** C1. On a form whose attribute [fieldName] has type ['datetime'],
    [setValue] of a valid date returns as soon as the field is editable
    (or the write is forced), and whenever it returns the attribute holds
    a date with that time value and the [getValue] that follows returns a
    date with the same time value, to the millisecond.

    The transport is stated for every date, valid or not. On the way in,
    [setValue] of a date does what the page function does on the date's
    ISO string, an Invalid Date (which has none) fails with a RangeError
    before the page is reached, and the page function sets the attribute
    to the date parsed from the string it received. On the way out, for
    every page whose attribute holds a date, the page function returns the
    date's ISO string (failing on an Invalid Date), and [getValue]
    returns the date parsed from that string. *)
Theorem setValue_getValue_datetime
    (w : World) (fieldName : string) (a : XrmAttribute) (t : Z)
    (settings : SettingsArg) :
  attributes w !! fieldName = Some a ->
  attrType a = "datetime" ->
  JsDate.valid_time t ->
  (forced (safeSettings settings)
   || existsb control_editable (omap (fun n => controls w !! n) (attrControls a)) = true ->
   exists w', setValue fieldName (VDate (Some t)) settings w = (Ok tt, w'))
  /\ (forall w',
        setValue fieldName (VDate (Some t)) settings w = (Ok tt, w') ->
        attrValue <$> attributes w' !! fieldName = Some (VDate (Some t))
        /\ getValue fieldName w' = (Ok (VDate (Some t)), w'))
  /\ (forall d : option Z,
        setValue fieldName (VDate d) settings w
        = match d with
          | Some t' =>
              (run setValue_inPage fieldName (VStr (JsDate.toISOString t'))
                     (safeSettings settings) ;;
               waitForTimeout (settleTime_or_500 (safeSettings settings))) w
          | None => (Err RangeError, w)
          end)
  /\ (forall (s : string) (w1 : World),
        setValue_inPage fieldName (VStr s) (safeSettings settings) w = (Ok tt, w1) ->
        attrValue <$> attributes w1 !! fieldName = Some (VDate (JsDate.parse s)))
  /\ (forall (w0 : World) (a0 : XrmAttribute) (d : option Z),
        attributes w0 !! fieldName = Some a0 ->
        attrType a0 = "datetime" ->
        attrValue a0 = VDate d ->
        getValue_inPage fieldName w0
        = match d with
          | Some t' => (Ok ("datetime", VStr (JsDate.toISOString t')), w0)
          | None => (Err RangeError, w0)
          end
        /\ getValue fieldName w0
           = match d with
             | Some t' => (Ok (VDate (JsDate.parse (JsDate.toISOString t'))), w0)
             | None => (Err RangeError, w0)
             end).
Proof.
  intros Ha Hty Ht.
  assert (Hout : forall (w0 : World) (a0 : XrmAttribute) (d : option Z),
            attributes w0 !! fieldName = Some a0 ->
            attrType a0 = "datetime" ->
            attrValue a0 = VDate d ->
            getValue_inPage fieldName w0
            = match d with
              | Some t' => (Ok ("datetime", VStr (JsDate.toISOString t')), w0)
              | None => (Err RangeError, w0)
              end
            /\ getValue fieldName w0
               = match d with
                 | Some t' => (Ok (VDate (JsDate.parse (JsDate.toISOString t'))), w0)
                 | None => (Err RangeError, w0)
                 end).
  { intros w0 a0 d Ha0 Hty0 Hv0.
    assert (Hin : getValue_inPage fieldName w0
                  = match d with
                    | Some t' => (Ok ("datetime", VStr (JsDate.toISOString t')), w0)
                    | None => (Err RangeError, w0)
                    end).
    { cbv [getValue_inPage bind getAttribute]. rewrite Ha0, Hty0, Hv0.
      destruct d; reflexivity. }
    split; [exact Hin |].
    cbv [getValue bind waitForXrmReady ret]. rewrite Hin.
    destruct d; reflexivity. }
  split; [| split; [| split; [| split]]].
  - intros Hed.
    cbv [setValue setValue_inPage bind waitForXrmReady ret
      js_toISOString isDateObject getAttribute attribute_controls throw
      host_setValue emit waitForTimeout].
    rewrite Ha, Hed. cbn [negb]. eexists. reflexivity.
  - intros w' Hset.
    assert (Hw' : attributes w' !! fieldName = Some (with_value a (VDate (Some t)))).
    { revert Hset. cbv [setValue setValue_inPage bind waitForXrmReady ret
        js_toISOString isDateObject getAttribute attribute_controls throw
        host_setValue emit waitForTimeout finalValue].
      rewrite Ha, Hty. cbn [String.eqb].
      destruct (negb _); [discriminate |].
      cbn [new_Date]. rewrite (parse_toISOString t Ht).
      intros [= <-]. cbn [attributes]. rewrite lookup_alter, Ha.
      case_decide; [reflexivity | congruence]. }
    split; [rewrite Hw'; reflexivity |].
    destruct (Hout w' (with_value a (VDate (Some t))) (Some t) Hw' Hty eq_refl) as [_ Hget].
    rewrite Hget, (parse_toISOString t Ht). reflexivity.
  - intros [t' |]; reflexivity.
  - intros s w1.
    cbv [setValue_inPage bind ret getAttribute attribute_controls throw
         host_setValue emit finalValue].
    rewrite Ha, Hty. cbn [String.eqb].
    destruct (negb _); [discriminate |].
    intros [= <-]. cbn [attributes new_Date]. rewrite lookup_alter, Ha.
    case_decide; [reflexivity | congruence].
  - exact Hout.
Qed.


Lemma setValues_cons k v rest settings w :
  setValues ((k, v) :: rest) settings w
  = match setValue k v settings w with
    | (Ok _, w') => setValues rest settings w'
    | (Err e, w') => (Err e, w')
    end.
Proof. reflexivity. Qed.

Lemma setValues_app before rest settings : forall w w1,
  setValues before settings w = (Ok tt, w1) ->
  setValues (before ++ rest) settings w = setValues rest settings w1.
Proof.
  induction before as [| [k0 v0] before IH]; intros w w1 Hb.
  - injection Hb as <-. reflexivity.
  - cbn [app]. rewrite setValues_cons in *.
    destruct (setValue k0 v0 settings w) as [[[] | e0] w0]; [| discriminate].
    apply IH, Hb.
Qed.

Lemma setValues_other values settings : forall w w' k,
  k ∉ map fst values ->
  setValues values settings w = (Ok tt, w') ->
  attributes w' !! k = attributes w !! k.
Proof.
  induction values as [| [k0 v0] values IH]; intros w w' k Hk H.
  - injection H as <-. reflexivity.
  - rewrite setValues_cons in H.
    destruct (setValue k0 v0 settings w) as [[[] | e] w1] eqn:E; [| discriminate].
    cbn [map fst] in Hk. apply not_elem_of_cons in Hk as [Hne Hk].
    rewrite (IH _ _ _ Hk H).
    destruct (setValue_ok_inv _ _ _ _ _ E) as (a & val & _ & _ & _ & _ & ->).
    cbn [attributes]. apply lookup_alter_ne. congruence.
Qed.

(** A write leaves every attribute its type, so what a later [setValue]
    will have the host set is settled by the page the mapping started
    on. *)
Lemma hostValue_after_setValue name value settings w w' :
  setValue name value settings w = (Ok tt, w') ->
  forall k x, hostValue w' k x = hostValue w k x.
Proof.
  intros H k x.
  destruct (setValue_ok_encoded _ _ _ _ _ H) as (a & Ha & ->).
  unfold hostValue. cbn [attributes].
  destruct (decide (k = name)) as [-> | Hne].
  - rewrite lookup_after_write with (a := a) by exact Ha. rewrite Ha. reflexivity.
  - rewrite lookup_alter_ne by congruence. reflexivity.
Qed.

(** What a [setValues] that returned has done, entry by entry. *)
Lemma setValues_ok_spec (values : list (string * JsValue)) settings : forall w w',
  setValues values settings w = (Ok tt, w') ->
  trace w' = trace w ++ concat (map (entry_events settings w) values)
  /\ (forall k x, hostValue w' k x = hostValue w k x)
  /\ (forall i ki vi,
        values !! i = Some (ki, vi) ->
        ki ∉ map fst (drop (S i) values) ->
        attrValue <$> attributes w' !! ki = Some (hostValue w ki vi)).
Proof.
  induction values as [| [k0 v0] values IH]; intros w w' H.
  - injection H as <-. split; [cbn; rewrite app_nil_r; reflexivity |].
    split; [reflexivity |]. intros i ki vi Hi. rewrite lookup_nil in Hi. discriminate.
  - rewrite setValues_cons in H.
    destruct (setValue k0 v0 settings w) as [[[] | e] w0] eqn:E; [| discriminate].
    pose proof (hostValue_after_setValue _ _ _ _ _ E) as Hhost.
    destruct (IH _ _ H) as (Htr & Hstable & Hval).
    assert (Hev : map (entry_events settings w0) values
                  = map (entry_events settings w) values).
    { apply map_ext. intros [k x]. unfold entry_events. rewrite Hhost. reflexivity. }
    destruct (setValue_ok_encoded _ _ _ _ _ E) as (a & Ha & Hw0).
    split; [| split].
    + rewrite Htr, Hev, Hw0. cbn [trace map concat]. rewrite <- !app_assoc. reflexivity.
    + intros k x. rewrite Hstable. apply Hhost.
    + intros [| i] ki vi Hi Hlater.
      * injection Hi as <- <-. cbn [drop] in Hlater.
        rewrite (setValues_other _ _ _ _ _ Hlater H), Hw0. cbn [attributes].
        rewrite lookup_after_write with (a := a) by exact Ha. reflexivity.
      * cbn [lookup] in Hi. rewrite <- Hhost. apply (Hval i); [exact Hi | exact Hlater].
Qed.

(** C5. [setValues] runs [setValue] on the entries one after the other in
    iteration order. When the entries before [(k, v)] have gone through
    and [setValue k v] fails, the whole call fails with that error, on the
    page the earlier entries left: the log holds, for each earlier entry
    in order, its write, its notification and its pause, and nothing for
    [(k, v)] or for the entries after it; and each earlier attribute (not
    written again by a later one of them) holds the value written to it.
    Nothing is rolled back, and the entries after [(k, v)] play no
    part. *)
Theorem setValues_not_atomic
    (before after : list (string * JsValue)) (k : string) (v : JsValue)
    (settings : SettingsArg) (w w1 w2 : World) (e : Error) :
  setValues before settings w = (Ok tt, w1) ->
  setValue k v settings w1 = (Err e, w2) ->
  setValues (before ++ (k, v) :: after) settings w = (Err e, w1)
  /\ w2 = w1
  /\ trace w1 = trace w ++ concat (map (entry_events settings w) before)
  /\ (forall i ki vi,
        before !! i = Some (ki, vi) ->
        ki ∉ map fst (drop (S i) before) ->
        attrValue <$> attributes w1 !! ki = Some (hostValue w ki vi))
  /\ (forall rest, setValues (before ++ rest) settings w = setValues rest settings w1).
Proof.
  intros Hb Hk.
  assert (Hw : w2 = w1) by (eapply setValue_err_unchanged; eassumption).
  destruct (setValues_ok_spec _ _ _ _ Hb) as (Htr & _ & Hval).
  split; [| split; [| split; [| split]]].
  - rewrite (setValues_app _ _ _ _ _ Hb), setValues_cons, Hk, Hw. reflexivity.
  - exact Hw.
  - exact Htr.
  - exact Hval.
  - intros rest. apply setValues_app, Hb.
Qed.

End AttributeFacts.

Section AbsentNames.

(** C3, as amended. For a name absent from the form: every [Attribute]
    operation fails with "Attribute ... not found", every [Control]
    operation with "Control ... not found", [SubGrid.openNthRecord] and
    [SubGrid.refresh] with "Subgrid control ... not found"; the five
    [SubGrid] queries do not fail: [getRecordCount],
    [getVisibleRecordCount] and [getEntityName] return undefined,
    [getRecordIds] the empty list and [isVisible] false. The page is
    unchanged in every case. *)
Theorem absent_name_outcomes (w : World) (field control : string) :
  attributes w !! field = None ->
  controls w !! control = None ->
  (Attribute.getValue field w = (Err (AttributeNotFound field), w)
   /\ (forall v s, isInvalidDate v = false ->
         Attribute.setValue field v s w = (Err (AttributeNotFound field), w))
   /\ Attribute.getRequiredLevel field w = (Err (AttributeNotFound field), w)
   /\ Attribute.getAttributeType field w = (Err (AttributeNotFound field), w)
   /\ Attribute.getFormattedValue field w = (Err (AttributeNotFound field), w)
   /\ Attribute.isDirty field w = (Err (AttributeNotFound field), w)
   /\ (forall l, Attribute.setRequiredLevel field l w = (Err (AttributeNotFound field), w)))
  /\ (Control.get control w = (Err (ControlNotFound control), w)
      /\ Control.getOptions control w = (Err (ControlNotFound control), w)
      /\ (forall b, Control.setVisible control b w = (Err (ControlNotFound control), w))
      /\ (forall b, Control.setDisabled control b w = (Err (ControlNotFound control), w))
      /\ Control.getLabel control w = (Err (ControlNotFound control), w)
      /\ (forall l, Control.setLabel control l w = (Err (ControlNotFound control), w)))
  /\ ((forall i, SubGrid.openNthRecord control i w = (Err (SubgridNotFound control), w))
      /\ SubGrid.refresh control w = (Err (SubgridNotFound control), w))
  /\ (SubGrid.getRecordCount control w = (Ok None, w)
      /\ SubGrid.getVisibleRecordCount control w = (Ok None, w)
      /\ SubGrid.getEntityName control w = (Ok None, w)
      /\ SubGrid.getRecordIds control w = (Ok [], w)
      /\ SubGrid.isVisible control w = (Ok false, w)).
Proof.
  intros Ha Hc.
  repeat split; intros;
    cbv [Attribute.getValue Attribute.getValue_inPage Attribute.setValue
         Attribute.setValue_inPage Attribute.getRequiredLevel
         Attribute.getAttributeType Attribute.getFormattedValue
         Attribute.isDirty Attribute.setRequiredLevel
         Control.get Control.getOptions Control.setVisible Control.setDisabled
         Control.getLabel Control.setLabel
         SubGrid.openNthRecord SubGrid.refresh SubGrid.getRecordCount
         SubGrid.getVisibleRecordCount SubGrid.getEntityName
         SubGrid.getRecordIds SubGrid.isVisible
         bind waitForXrmReady ret throw getAttribute getControl];
    rewrite ?Ha, ?Hc; try reflexivity.
  destruct v as [| | b | n | s0 | [t |]]; try discriminate;
    cbn [isDateObject js_toISOString]; cbv [ret]; rewrite Ha; reflexivity.
Qed.

End AbsentNames.

Section SubGridFacts.
Import SubGrid.

Lemma collectIds_map rows : forall ids,
  collectIds rows ids = ids ++ map (fun r => normalizeId (rowId r)) rows.
Proof.
  induction rows as [| r rows IH]; intros ids; cbn [collectIds map].
  - rewrite app_nil_r. reflexivity.
  - rewrite IH, <- app_assoc. reflexivity.
Qed.

Lemma lower_char_normal c : is_brace c = false -> normal_char (lower_char c) = true.
Proof.
  destruct c as [[] [] [] [] [] [] [] []]; intros H;
    first [discriminate H | reflexivity].
Qed.

Lemma normalizeId_normal s : string_forallb normal_char (normalizeId s) = true.
Proof.
  unfold normalizeId.
  induction s as [| c s IH]; cbn [remove_braces toLowerCase string_forallb].
  - reflexivity.
  - destruct (is_brace c) eqn:E; [exact IH |].
    cbn [toLowerCase string_forallb]. rewrite lower_char_normal by exact E.
    exact IH.
Qed.


End SubGridFacts.

Section AccountFactoryFacts.
Import AccountFactory.

Lemma create_snd options clock : snd (create options clock) = fun k => clock (S k).
Proof. reflexivity. Qed.

Lemma create_name options clock :
  obj_get "name" (fst (create options clock))
  = Some (JStr (if is_truthy (name options)
                then default "" (name options) +:+ " " +:+ number_to_string (clock O)
                else "Test Account " +:+ number_to_string (clock O))).
Proof.
  unfold create, getTimestamp. cbn [fst].
  rewrite !obj_get_assign_when_ne by reflexivity. reflexivity.
Qed.

Lemma create_without_name options n clock clock' :
  obj_without "name" (fst (create (with_name options n) clock))
  = obj_without "name" (fst (create options clock')).
Proof.
  unfold create, getTimestamp. cbn [fst].
  rewrite !obj_without_assign_when by reflexivity. reflexivity.
Qed.

Lemma createBulk_loop_spec options fuel : forall i accounts clock,
  fst (createBulk_loop fuel i options accounts clock)
  = accounts ++ map (fun j => fst (create (bulk_options options (i + j))
                                          (fun k => clock (j + k)%nat)))
                    (seq 0 fuel).
Proof.
  induction fuel as [| fuel IH]; intros i accounts clock.
  - cbn [createBulk_loop fst seq map]. rewrite app_nil_r. reflexivity.
  - cbn [createBulk_loop].
    rewrite (surjective_pairing (create (bulk_options options i) clock)).
    rewrite IH, create_snd, <- app_assoc. f_equal.
    cbn [seq map app]. f_equal.
    + rewrite Nat.add_0_r. reflexivity.
    + rewrite <- seq_shift, map_map. apply map_ext. intros j.
      rewrite Nat.add_succ_r. reflexivity.
Qed.

Lemma bulk_options_truthy options i : is_truthy (name (bulk_options options i)) = true.
Proof.
  unfold bulk_options, with_name. cbn [name].
  destruct (name options) as [[| c s] |]; reflexivity.
Qed.

Lemma bulk_name options i clock :
  obj_get "name" (fst (create (bulk_options options i) clock))
  = Some (JStr ((if is_truthy (name options) then default "" (name options)
                 else "Bulk Test Account")
                +:+ " " +:+ number_to_string (Z.of_nat i + 1)
                +:+ " " +:+ number_to_string (clock O))).
Proof.
  rewrite create_name, bulk_options_truthy.
  unfold bulk_options, with_name. cbn [name default from_option].
  destruct (is_truthy (name options)).
  - unfold id. rewrite app_assoc_string. reflexivity.
  - reflexivity.
Qed.

(** C7. For a count [n >= 0], [createBulk n options] returns exactly [n]
    payloads. The name of payload [i] ends in the index [i + 1] and the
    clock reading of its creation; the names are pairwise distinct; every
    other property is the one [create options] itself produces, whatever
    the index and the clock. *)
Theorem createBulk_spec
    (n : Z) (options : CreateAccountOptions) (clock clock' : Clock) :
  (0 <= n)%Z ->
  let accounts := fst (createBulk n options clock) in
  let base := if is_truthy (name options) then default "" (name options)
              else "Bulk Test Account" in
  Z.of_nat (length accounts) = n
  /\ (forall i account,
        accounts !! i = Some account ->
        obj_get "name" account
          = Some (JStr (base +:+ " " +:+ number_to_string (Z.of_nat i + 1)
                        +:+ " " +:+ number_to_string (clock i)))
        /\ obj_without "name" account = obj_without "name" (fst (create options clock')))
  /\ (forall i j a b,
        accounts !! i = Some a -> accounts !! j = Some b ->
        obj_get "name" a = obj_get "name" b -> i = j).
Proof.
  intros Hn accounts base.
  assert (Hacc : accounts
                 = map (fun j => fst (create (bulk_options options j)
                                             (fun k => clock (j + k)%nat)))
                       (seq 0 (Z.to_nat n))).
  { subst accounts. unfold createBulk. rewrite createBulk_loop_spec. reflexivity. }
  assert (Hlook : forall i account, accounts !! i = Some account ->
            (i < Z.to_nat n)%nat /\
            account = fst (create (bulk_options options i) (fun k => clock (i + k)%nat))).
  { intros i account Hi. rewrite Hacc in Hi.
    rewrite list_lookup_fmap in Hi.
    destruct (seq 0 (Z.to_nat n) !! i) as [j |] eqn:Ej; [| discriminate].
    apply lookup_seq in Ej as [-> Hlt]. injection Hi as <-. split; [exact Hlt | reflexivity]. }
  assert (Hname : forall i account, accounts !! i = Some account ->
            obj_get "name" account
            = Some (JStr (base +:+ " " +:+ number_to_string (Z.of_nat i + 1)
                          +:+ " " +:+ number_to_string (clock i)))).
  { intros i account Hi. destruct (Hlook _ _ Hi) as [_ ->].
    rewrite bulk_name, Nat.add_0_r. reflexivity. }
  split; [| split].
  - rewrite Hacc, length_map, length_seq. lia.
  - intros i account Hi. split; [apply Hname, Hi |].
    destruct (Hlook _ _ Hi) as [_ ->]. apply create_without_name.
  - intros i j a b Hi Hj E.
    rewrite (Hname _ _ Hi), (Hname _ _ Hj) in E. injection E as E.
    apply numbered_name_inj in E; lia.
Qed.

End AccountFactoryFacts.

Section FactoryFields.

Ltac factory_field :=
  unfold AccountFactory.create, ContactFactory.create, getTimestamp; cbn [fst];
  repeat first [ rewrite obj_get_assign_when_eq
               | rewrite obj_get_assign_when_ne by reflexivity ];
  match goal with
  | |- match ?x with _ => _ end = _ => destruct x; reflexivity
  end.

Lemma account_fields options clock :
  let account := fst (AccountFactory.create options clock) in
  (obj_get "telephone1" account = truthy_string (AccountFactory.phone options)
   /\ obj_get "telephone2" account = truthy_string (AccountFactory.secondaryPhone options)
   /\ obj_get "emailaddress1" account = truthy_string (AccountFactory.email options)
   /\ obj_get "websiteurl" account = truthy_string (AccountFactory.website options)
   /\ obj_get "address1_line1" account = truthy_string (AccountFactory.addressLine1 options)
   /\ obj_get "address1_city" account = truthy_string (AccountFactory.city options)
   /\ obj_get "address1_stateorprovince" account = truthy_string (AccountFactory.state options)
   /\ obj_get "address1_postalcode" account = truthy_string (AccountFactory.postalCode options)
   /\ obj_get "address1_country" account = truthy_string (AccountFactory.country options)
   /\ obj_get "description" account = truthy_string (AccountFactory.description options))
  /\ (obj_get "industrycode" account = defined_number (AccountFactory.industry options)
      /\ obj_get "revenue" account = defined_number (AccountFactory.revenue options)
      /\ obj_get "numberofemployees" account = defined_number (AccountFactory.employees options))
  /\ (obj_get "parentaccountid@odata.bind" account
        = bind_path "accounts" (AccountFactory.parentAccountId options)
      /\ obj_get "primarycontactid@odata.bind" account
        = bind_path "contacts" (AccountFactory.primaryContactId options)).
Proof. cbv zeta. repeat split; factory_field. Qed.

Lemma contact_fields options clock :
  let contact := fst (ContactFactory.create options clock) in
  (obj_get "emailaddress1" contact = truthy_string (ContactFactory.email options)
   /\ obj_get "telephone1" contact = truthy_string (ContactFactory.phone options)
   /\ obj_get "mobilephone" contact = truthy_string (ContactFactory.mobile options)
   /\ obj_get "jobtitle" contact = truthy_string (ContactFactory.jobTitle options)
   /\ obj_get "description" contact = truthy_string (ContactFactory.description options))
  /\ obj_get "preferredcontactmethodcode" contact
       = defined_number (ContactFactory.preferredContactMethod options)
  /\ obj_get "parentcustomerid_account@odata.bind" contact
       = bind_path "accounts" (ContactFactory.accountId options).
Proof. cbv zeta. repeat split; factory_field. Qed.

(** C8, as amended. A non-empty [parentAccountId], [primaryContactId]
    (accounts) or [accountId] (contacts) yields the binding key
    ['parentaccountid@odata.bind'], ['primarycontactid@odata.bind'] or
    ['parentcustomerid_account@odata.bind'], mapped to
    ['/accounts(id)'], ['/contacts(id)'] and ['/accounts(id)']; an
    identifier that is absent or the empty string yields no binding
    key. *)
Theorem binding_keys
    (ao : AccountFactory.CreateAccountOptions)
    (co : ContactFactory.CreateContactOptions) (clock : Clock) :
  let account := fst (AccountFactory.create ao clock) in
  let contact := fst (ContactFactory.create co clock) in
  (forall id, AccountFactory.parentAccountId ao = Some id ->
              String.eqb id "" = false ->
              obj_get "parentaccountid@odata.bind" account
              = Some (JStr ("/accounts(" +:+ id +:+ ")")))
  /\ (forall id, AccountFactory.primaryContactId ao = Some id ->
                 String.eqb id "" = false ->
                 obj_get "primarycontactid@odata.bind" account
                 = Some (JStr ("/contacts(" +:+ id +:+ ")")))
  /\ (forall id, ContactFactory.accountId co = Some id ->
                 String.eqb id "" = false ->
                 obj_get "parentcustomerid_account@odata.bind" contact
                 = Some (JStr ("/accounts(" +:+ id +:+ ")")))
  /\ (AccountFactory.parentAccountId ao = None
      \/ AccountFactory.parentAccountId ao = Some "" ->
      obj_get "parentaccountid@odata.bind" account = None)
  /\ (AccountFactory.primaryContactId ao = None
      \/ AccountFactory.primaryContactId ao = Some "" ->
      obj_get "primarycontactid@odata.bind" account = None)
  /\ (ContactFactory.accountId co = None \/ ContactFactory.accountId co = Some "" ->
      obj_get "parentcustomerid_account@odata.bind" contact = None).
Proof.
  intros account contact.
  destruct (account_fields ao clock) as (_ & _ & Hp & Hc).
  destruct (contact_fields co clock) as (_ & _ & Ha).
  fold account in Hp, Hc. fold contact in Ha.
  rewrite Hp, Hc, Ha. unfold bind_path.
  repeat split.
  - intros id -> ->. reflexivity.
  - intros id -> ->. reflexivity.
  - intros id -> ->. reflexivity.
  - intros [-> | ->]; reflexivity.
  - intros [-> | ->]; reflexivity.
  - intros [-> | ->]; reflexivity.
Qed.

(** C10. A string option given as the empty string leaves no property in
    the payload, for each string option of both factories; the numeric
    options [industry], [revenue], [employees] and
    [preferredContactMethod] are copied whenever they are given, zero
    included. *)
Theorem empty_strings_dropped_numbers_kept
    (ao : AccountFactory.CreateAccountOptions)
    (co : ContactFactory.CreateContactOptions) (clock : Clock) :
  let account := fst (AccountFactory.create ao clock) in
  let contact := fst (ContactFactory.create co clock) in
  ((AccountFactory.phone ao = Some "" -> obj_get "telephone1" account = None)
   /\ (AccountFactory.secondaryPhone ao = Some "" -> obj_get "telephone2" account = None)
   /\ (AccountFactory.email ao = Some "" -> obj_get "emailaddress1" account = None)
   /\ (AccountFactory.website ao = Some "" -> obj_get "websiteurl" account = None)
   /\ (AccountFactory.addressLine1 ao = Some "" -> obj_get "address1_line1" account = None)
   /\ (AccountFactory.city ao = Some "" -> obj_get "address1_city" account = None)
   /\ (AccountFactory.state ao = Some "" ->
       obj_get "address1_stateorprovince" account = None)
   /\ (AccountFactory.postalCode ao = Some "" ->
       obj_get "address1_postalcode" account = None)
   /\ (AccountFactory.country ao = Some "" -> obj_get "address1_country" account = None)
   /\ (AccountFactory.description ao = Some "" -> obj_get "description" account = None))
  /\ ((ContactFactory.email co = Some "" -> obj_get "emailaddress1" contact = None)
      /\ (ContactFactory.phone co = Some "" -> obj_get "telephone1" contact = None)
      /\ (ContactFactory.mobile co = Some "" -> obj_get "mobilephone" contact = None)
      /\ (ContactFactory.jobTitle co = Some "" -> obj_get "jobtitle" contact = None)
      /\ (ContactFactory.description co = Some "" -> obj_get "description" contact = None))
  /\ ((forall n, AccountFactory.industry ao = Some n ->
                 obj_get "industrycode" account = Some (JNum n))
      /\ (forall n, AccountFactory.revenue ao = Some n ->
                    obj_get "revenue" account = Some (JNum n))
      /\ (forall n, AccountFactory.employees ao = Some n ->
                    obj_get "numberofemployees" account = Some (JNum n))
      /\ (forall n, ContactFactory.preferredContactMethod co = Some n ->
                    obj_get "preferredcontactmethodcode" contact = Some (JNum n))).
Proof.
  intros account contact.
  destruct (account_fields ao clock)
    as ((H1 & H2 & H3 & H4 & H5 & H6 & H7 & H8 & H9 & H10) & (N1 & N2 & N3) & _).
  destruct (contact_fields co clock) as ((C1 & C2 & C3 & C4 & C5) & M1 & _).
  fold account in H1, H2, H3, H4, H5, H6, H7, H8, H9, H10, N1, N2, N3.
  fold contact in C1, C2, C3, C4, C5, M1.
  rewrite H1, H2, H3, H4, H5, H6, H7, H8, H9, H10, N1, N2, N3, C1, C2, C3, C4, C5, M1.
  repeat split; try (intros ->; reflexivity); intros n ->; reflexivity.
Qed.

End FactoryFields.

Section Concrete.
Import Attribute.

Lemma settle_pause settings :
  settleTime_or_500 (safeSettings settings)
  = match settings with
    | NoSettings => 500%Z
    | SettleNumber n => if (n =? 0)%Z then 500%Z else n
    | SettingsObject o =>
        match settleTime o with
        | Some n => if (n =? 0)%Z then 500%Z else n
        | None => 500%Z
        end
    end.
Proof. destruct settings as [| n | [[n |] f]]; reflexivity. Qed.

Lemma forceValue_default settings :
  forced (safeSettings settings)
  = match settings with
    | SettingsObject o => match forceValue o with Some b => b | None => false end
    | _ => false
    end.
Proof. destruct settings as [| n | [t [b |]]]; reflexivity. Qed.

(** A successful [setValue] wrote once, then notified, then paused. *)
Lemma setValue_trace name value settings w w' :
  setValue name value settings w = (Ok tt, w') ->
  exists written,
    trace w' = trace w ++ [EvSetValue name written; EvFireOnChange name;
                           EvWaitForTimeout (settleTime_or_500 (safeSettings settings))].
Proof.
  cbv [setValue setValue_inPage bind waitForXrmReady ret getAttribute
       attribute_controls throw host_setValue emit waitForTimeout].
  destruct value as [| | b | n | s | [t |]]; cbn [isDateObject js_toISOString];
    cbv [ret throw]; try discriminate;
    (destruct (attributes w !! name) as [a |]; [| discriminate]);
    (destruct (negb _); [discriminate |]);
    intros [= <-]; cbn [trace]; eexists; rewrite <- !app_assoc; reflexivity.
Qed.

Lemma getFormattedValue_present w name a :
  attributes w !! name = Some a ->
  getFormattedValue name w = (Ok (attrFormat a), w).
Proof.
  intros Ha. cbv [getFormattedValue bind waitForXrmReady ret getAttribute].
  rewrite Ha. reflexivity.
Qed.

(** C4, evaluated on the sample form. The e-mail field holds
    ["info@contoso.com"]; [getFormattedValue] answers with the name of the
    field's format, ["email"], which is what the host's [getFormat()]
    reports, and not with the value as displayed. *)
Theorem getFormattedValue_returns_format_name :
  attrValue <$> attributes account_form !! "emailaddress1" = Some (VStr "info@contoso.com")
  /\ getFormattedValue "emailaddress1" account_form = (Ok (Some "email"), account_form).
Proof. split; vm_compute; reflexivity. Qed.

(** C6, evaluated on the sample form. A settle duration of zero, given as
    a bare number or as [settleTime], makes [setValue] pause for 500
    milliseconds: [settleTime || 500] takes zero for missing. *)
Theorem setValue_zero_settle_waits_500 :
  trace (snd (setValue "name" (VStr "Fabrikam") (SettleNumber 0) account_form))
  = [EvSetValue "name" (VStr "Fabrikam"); EvFireOnChange "name"; EvWaitForTimeout 500]
  /\ trace (snd (setValue "name" (VStr "Fabrikam")
                   (SettingsObject {| settleTime := Some 0%Z; forceValue := None |})
                   account_form))
     = [EvSetValue "name" (VStr "Fabrikam"); EvFireOnChange "name"; EvWaitForTimeout 500].
Proof. split; vm_compute; reflexivity. Qed.

Lemma setValue_getValue_datetime_witness :
  fst (setValue "createdon" (VDate (Some 1700000000000%Z)) NoSettings account_form) = Ok tt
  /\ getValue "createdon"
       (snd (setValue "createdon" (VDate (Some 1700000000000%Z)) NoSettings account_form))
     = (Ok (VDate (Some 1700000000000%Z)),
        snd (setValue "createdon" (VDate (Some 1700000000000%Z)) NoSettings account_form))
  /\ setValue "createdon" (VDate None) NoSettings account_form
     = (Err RangeError, account_form).
Proof.
  destruct (setValue_getValue_datetime account_form "createdon"
              {| attrType := "datetime"; attrValue := VNull; attrFormat := Some "datetime";
                 attrRequiredLevel := "none"; attrIsDirty := false;
                 attrControls := ["createdon"] |}
              1700000000000 NoSettings) as (Hreturns & Hafter & Hin & _).
  - vm_compute. reflexivity.
  - reflexivity.
  - unfold JsDate.valid_time, JsDate.maxTime. lia.
  - destruct Hreturns as [w' Hw']; [vm_compute; reflexivity |].
    split; [rewrite Hw'; reflexivity |].
    split; [rewrite Hw'; exact (proj2 (Hafter w' Hw')) | exact (Hin None)].
Defined.


Lemma absent_name_outcomes_witness :
  getValue "nosuchfield" account_form = (Err (AttributeNotFound "nosuchfield"), account_form)
  /\ SubGrid.refresh "Opportunities" account_form
     = (Err (SubgridNotFound "Opportunities"), account_form)
  /\ SubGrid.getRecordIds "Opportunities" account_form = (Ok [], account_form).
Proof.
  destruct (absent_name_outcomes account_form "nosuchfield" "Opportunities")
    as ((Hg & _) & _ & (_ & Hr) & (_ & _ & _ & Hi & _)).
  - vm_compute. reflexivity.
  - vm_compute. reflexivity.
  - exact (conj Hg (conj Hr Hi)).
Defined.

Lemma subgrid_queries_missing_control_counterexample :
  controls account_form !! "Opportunities" = None
  /\ SubGrid.getRecordCount "Opportunities" account_form = (Ok None, account_form)
  /\ SubGrid.getVisibleRecordCount "Opportunities" account_form = (Ok None, account_form)
  /\ SubGrid.getEntityName "Opportunities" account_form = (Ok None, account_form)
  /\ SubGrid.getRecordIds "Opportunities" account_form = (Ok [], account_form)
  /\ SubGrid.isVisible "Opportunities" account_form = (Ok false, account_form).
Proof. repeat split; vm_compute; reflexivity. Qed.

Lemma setValues_not_atomic_witness :
  fst (setValues [("name", VStr "Fabrikam"); ("telephone1", VStr "+1-555-0199");
                  ("fax", VStr "+1-555-0111")] NoSettings account_form)
  = Err (NotEditable "telephone1")
  /\ trace (snd (setValues [("name", VStr "Fabrikam"); ("telephone1", VStr "+1-555-0199");
                            ("fax", VStr "+1-555-0111")] NoSettings account_form))
     = [EvSetValue "name" (VStr "Fabrikam"); EvFireOnChange "name"; EvWaitForTimeout 500]
  /\ attrValue <$> attributes
       (snd (setValues [("name", VStr "Fabrikam"); ("telephone1", VStr "+1-555-0199");
                        ("fax", VStr "+1-555-0111")] NoSettings account_form)) !! "name"
     = Some (VStr "Fabrikam")
  /\ attrValue <$> attributes
       (snd (setValues [("name", VStr "Fabrikam"); ("telephone1", VStr "+1-555-0199");
                        ("fax", VStr "+1-555-0111")] NoSettings account_form)) !! "fax"
     = Some (VStr "").
Proof.
  destruct (setValues_not_atomic [("name", VStr "Fabrikam")]
              [("fax", VStr "+1-555-0111")]
              "telephone1" (VStr "+1-555-0199") NoSettings account_form
              (snd (setValues [("name", VStr "Fabrikam")] NoSettings account_form))
              (snd (setValues [("name", VStr "Fabrikam")] NoSettings account_form))
              (NotEditable "telephone1"))
    as (Hfails & _ & Htrace & Hvalue & _).
  - vm_compute. reflexivity.
  - vm_compute. reflexivity.
  - cbn [app] in Hfails. rewrite Hfails. cbn [fst snd].
    split; [reflexivity |]. split; [| split].
    + rewrite Htrace. vm_compute. reflexivity.
    + rewrite (Hvalue 0%nat "name" (VStr "Fabrikam") eq_refl).
      * vm_compute. reflexivity.
      * cbn [drop map]. apply not_elem_of_nil.
    + vm_compute. reflexivity.
Defined.


Lemma createBulk_spec_witness :
  Z.of_nat (length (fst (AccountFactory.createBulk 3 empty_parent_options ticking_clock)))
  = 3%Z.
Proof.
  refine (proj1 (createBulk_spec 3 empty_parent_options ticking_clock ticking_clock _)).
  lia.
Defined.

Lemma empty_identifier_counterexample :
  AccountFactory.parentAccountId empty_parent_options = Some ""
  /\ obj_get "parentaccountid@odata.bind"
       (fst (AccountFactory.create empty_parent_options ticking_clock)) = None.
Proof. split; reflexivity. Qed.

Lemma binding_keys_witness :
  obj_get "primarycontactid@odata.bind"
    (fst (AccountFactory.create empty_parent_options ticking_clock))
  = Some (JStr "/contacts(c0ffee00-0000-4000-8000-000000000001)")
  /\ obj_get "parentcustomerid_account@odata.bind"
       (fst (ContactFactory.create linked_contact_options ticking_clock))
     = Some (JStr "/accounts(acc00000-0000-4000-8000-000000000002)")
  /\ obj_get "parentaccountid@odata.bind"
       (fst (AccountFactory.create empty_parent_options ticking_clock)) = None.
Proof.
  destruct (binding_keys empty_parent_options linked_contact_options ticking_clock)
    as (_ & Hc & Ha & Hp & _).
  split; [| split].
  - exact (Hc "c0ffee00-0000-4000-8000-000000000001" eq_refl eq_refl).
  - exact (Ha "acc00000-0000-4000-8000-000000000002" eq_refl eq_refl).
  - apply Hp. right. reflexivity.
Defined.

Lemma empty_strings_dropped_numbers_kept_witness :
  obj_get "telephone1" (fst (AccountFactory.create empty_parent_options ticking_clock)) = None
  /\ obj_get "industrycode" (fst (AccountFactory.create empty_parent_options ticking_clock))
     = Some (JNum 0)
  /\ obj_get "emailaddress1"
       (fst (ContactFactory.create linked_contact_options ticking_clock)) = None
  /\ obj_get "preferredcontactmethodcode"
       (fst (ContactFactory.create linked_contact_options ticking_clock)) = Some (JNum 0).
Proof.
  destruct (empty_strings_dropped_numbers_kept empty_parent_options
              linked_contact_options ticking_clock)
    as ((Hp & _) & (He & _) & (Hi & _ & _ & Hm)).
  split; [| split; [| split]].
  - apply Hp. reflexivity.
  - apply Hi. reflexivity.
  - apply He. reflexivity.
  - apply Hm. reflexivity.
Defined.

End Concrete.

(* ===================================================================== *)
(** * Further properties of the accessors, the factories and the tests *)
(* ===================================================================== *)

Section AttributeMore.
Import Attribute.

Lemma getValue_present w name a :
  attributes w !! name = Some a ->
  getValue name w
  = if String.eqb (attrType a) "datetime"
    then match attrValue a with
         | VDate (Some t) => (Ok (VDate (JsDate.parse (JsDate.toISOString t))), w)
         | VDate None => (Err RangeError, w)
         | VStr s => (Ok (VDate (JsDate.parse s)), w)
         | v => (Ok v, w)
         end
    else (Ok (attrValue a), w).
Proof.
  intros Ha. cbv [getValue getValue_inPage bind waitForXrmReady ret getAttribute].
  rewrite Ha. destruct (String.eqb (attrType a) "datetime") eqn:E.
  - destruct (attrValue a) as [| | b | n | s | [t |]];
      cbn [andb isDateObject js_toISOString]; cbv [ret throw]; rewrite ?E; reflexivity.
  - cbn [andb]. cbv [ret]. rewrite E. reflexivity.
Qed.


(** X1. On an attribute whose type is not ['datetime'], a [setValue] of a
    value that is not a Date, once it has returned, is followed by a
    [getValue] that returns that very value. *)
Theorem setValue_getValue_plain
    (w w' : World) (name : string) (a : XrmAttribute) (value : JsValue)
    (settings : SettingsArg) :
  attributes w !! name = Some a ->
  String.eqb (attrType a) "datetime" = false ->
  isDateObject value = false ->
  setValue name value settings w = (Ok tt, w') ->
  getValue name w' = (Ok value, w').
Proof.
  intros Ha Hty Hnd Hset.
  destruct (setValue_ok_inv _ _ _ _ _ Hset) as (a' & val & Ha' & Hval & _ & _ & ->).
  rewrite Ha in Ha'. injection Ha' as <-. rewrite (Hval Hnd).
  erewrite getValue_present by (cbn [attributes]; apply lookup_after_write, Ha).
  cbn [with_value attrType attrValue]. rewrite Hty.
  unfold finalValue. rewrite Hty. reflexivity.
Qed.

(** X2. A Date handed to [setValue] for an attribute whose type is not
    ['datetime'] is written as its ISO string, and [getValue] returns that
    string, not a Date. *)
Theorem date_on_plain_field_read_as_string
    (w w' : World) (name : string) (a : XrmAttribute) (t : Z)
    (settings : SettingsArg) :
  attributes w !! name = Some a ->
  String.eqb (attrType a) "datetime" = false ->
  setValue name (VDate (Some t)) settings w = (Ok tt, w') ->
  getValue name w' = (Ok (VStr (JsDate.toISOString t)), w').
Proof.
  intros Ha Hty Hset.
  destruct (setValue_ok_inv _ _ _ _ _ Hset) as (a' & val & Ha' & _ & Hval & _ & ->).
  rewrite Ha in Ha'. injection Ha' as <-. rewrite (Hval t eq_refl).
  erewrite getValue_present by (cbn [attributes]; apply lookup_after_write, Ha).
  cbn [with_value attrType attrValue]. rewrite Hty.
  unfold finalValue. rewrite Hty. reflexivity.
Qed.

(** X3. [setValue] with [null] on a ['datetime'] attribute does not clear the
    field: the page writes [new Date(null)], the epoch, and [getValue]
    returns that date. *)
Theorem null_on_datetime_field_writes_epoch
    (w w' : World) (name : string) (a : XrmAttribute) (settings : SettingsArg) :
  attributes w !! name = Some a ->
  attrType a = "datetime" ->
  setValue name VNull settings w = (Ok tt, w') ->
  attributes w' !! name = Some (with_value a (VDate (Some 0%Z)))
  /\ getValue name w' = (Ok (VDate (Some 0%Z)), w').
Proof.
  intros Ha Hty Hset.
  destruct (setValue_ok_inv _ _ _ _ _ Hset) as (a' & val & Ha' & Hval & _ & _ & ->).
  rewrite Ha in Ha'. injection Ha' as <-. rewrite (Hval eq_refl).
  assert (Hf : finalValue a VNull = VDate (Some 0%Z)).
  { unfold finalValue. rewrite Hty. reflexivity. }
  rewrite Hf.
  assert (Hl : attributes
                 {| attributes := alter (fun x => with_value x (VDate (Some 0%Z))) name (attributes w);
                    controls := controls w; pageUrl := pageUrl w;
                    trace := trace w ++ [EvSetValue name (VDate (Some 0%Z)); EvFireOnChange name;
                                         EvWaitForTimeout (settleTime_or_500 (safeSettings settings))];
                    served := served w |}
                 !! name = Some (with_value a (VDate (Some 0%Z)))).
  { cbn [attributes]. apply lookup_after_write, Ha. }
  split; [exact Hl |].
  rewrite (getValue_present _ _ _ Hl). cbn [with_value attrType attrValue].
  rewrite Hty. cbn [String.eqb Ascii.eqb Bool.eqb].
  rewrite parse_toISOString by (unfold JsDate.valid_time, JsDate.maxTime; lia).
  reflexivity.
Qed.

(** X5. A [setValues] that returns has, for each entry in order, written the
    value, fired the change notification and paused for the settle time:
    the pauses add up, one per entry. *)
Theorem setValues_pauses_once_per_entry
    (values : list (string * JsValue)) (settings : SettingsArg) (w w' : World) :
  setValues values settings w = (Ok tt, w') ->
  exists written : list JsValue,
    length written = length values
    /\ trace w'
       = trace w
         ++ concat (zip_with
                      (fun kv v => [EvSetValue (fst kv) v; EvFireOnChange (fst kv);
                                    EvWaitForTimeout (settleTime_or_500 (safeSettings settings))])
                      values written).
Proof.
  revert w. induction values as [| [k v] values IH]; intros w H.
  - injection H as <-. exists []. split; [reflexivity |].
    cbn. rewrite app_nil_r. reflexivity.
  - rewrite setValues_cons in H.
    destruct (setValue k v settings w) as [[[] | e] w1] eqn:E; [| discriminate].
    destruct (setValue_trace _ _ _ _ _ E) as [x Hx].
    destruct (IH _ H) as (written & Hlen & Htr).
    exists (x :: written). split; [cbn; rewrite Hlen; reflexivity |].
    rewrite Htr, Hx. cbn [zip_with concat fst]. rewrite <- !app_assoc. reflexivity.
Qed.

(** X7. On an attribute of the form [setRequiredLevel] always goes through (it
    has no editability check), [getRequiredLevel] then returns the level
    set, and the attribute's value and the controls are untouched. *)
Theorem requiredLevel_round_trip
    (w : World) (name level : string) (a : XrmAttribute) :
  attributes w !! name = Some a ->
  exists w',
    setRequiredLevel name level w = (Ok tt, w')
    /\ getRequiredLevel name w' = (Ok level, w')
    /\ attributes w' !! name = Some (with_requiredLevel a level)
    /\ fst (getValue name w') = fst (getValue name w)
    /\ controls w' = controls w.
Proof.
  intros Ha. eexists. split.
  { cbv [setRequiredLevel bind waitForXrmReady ret getAttribute host_setRequiredLevel].
    rewrite Ha. reflexivity. }
  assert (Hl : alter (fun x => with_requiredLevel x level) name (attributes w) !! name
               = Some (with_requiredLevel a level)).
  { rewrite lookup_alter, Ha. case_decide; [reflexivity | congruence]. }
  split; [| split; [| split]].
  - cbv [getRequiredLevel bind waitForXrmReady ret getAttribute]. cbn [attributes].
    rewrite Hl. reflexivity.
  - exact Hl.
  - rewrite (getValue_present w name a Ha).
    erewrite getValue_present by (cbn [attributes]; exact Hl).
    cbn [with_requiredLevel attrType attrValue].
    destruct (String.eqb (attrType a) "datetime"); [| reflexivity].
    destruct (attrValue a) as [| | b | n | s | [t |]]; reflexivity.
  - reflexivity.
Qed.

End AttributeMore.

Section GateMore.
Import Attribute.

Lemma setValue_returns_iff name value settings w a :
  attributes w !! name = Some a ->
  isInvalidDate value = false ->
  (fst (setValue name value settings w) = Ok tt <-> editable w a (safeSettings settings) = true)
  /\ (editable w a (safeSettings settings) = false ->
      setValue name value settings w = (Err (NotEditable name), w)).
Proof.
  intros Ha Hv. unfold editable.
  cbv [setValue setValue_inPage bind waitForXrmReady ret getAttribute
       attribute_controls throw host_setValue emit waitForTimeout].
  destruct value as [| | b | n | s | [t |]]; try discriminate;
    cbn [isDateObject js_toISOString]; cbv [ret]; rewrite Ha;
    destruct (forced (safeSettings settings)
              || existsb control_editable
                   (omap (fun n => controls w !! n) (attrControls a)));
    cbn [negb fst]; (split; [split; [intros; first [reflexivity | discriminate]
                             | intros; first [reflexivity | discriminate]]
                            | intros; first [reflexivity | discriminate]]).
Qed.


Lemma editable_alter_attribute w a opts f :
  editable {| attributes := f (attributes w); controls := controls w;
              pageUrl := pageUrl w; trace := trace w; served := served w |} a opts
  = editable w a opts.
Proof. reflexivity. Qed.

Lemma setValue_plain_value w w' name a value settings :
  attributes w !! name = Some a ->
  String.eqb (attrType a) "datetime" = false ->
  isDateObject value = false ->
  setValue name value settings w = (Ok tt, w') ->
  attributes w' !! name = Some (with_value a value).
Proof.
  intros Ha Hty Hnd Hset.
  destruct (setValue_ok_inv _ _ _ _ _ Hset) as (a' & val & Ha' & Hval & _ & _ & ->).
  rewrite Ha in Ha'. injection Ha' as <-. rewrite (Hval Hnd).
  cbn [attributes]. unfold finalValue. rewrite Hty. apply lookup_after_write, Ha.
Qed.

(** X6. After a [setValues] that returns, on distinct names of attributes that
    are not of type ['datetime'] and with values that are not Dates,
    [getValue] returns for every entry the value given for it. *)
Theorem setValues_then_getValue
    (values : list (string * JsValue)) (settings : SettingsArg) (w w' : World) :
  NoDup (map fst values) ->
  (forall k v, (k, v) ∈ values ->
     isDateObject v = false
     /\ exists a, attributes w !! k = Some a
                  /\ String.eqb (attrType a) "datetime" = false) ->
  setValues values settings w = (Ok tt, w') ->
  forall k v, (k, v) ∈ values -> getValue k w' = (Ok v, w').
Proof.
  revert w. induction values as [| [k0 v0] values IH]; intros w Hnd Hplain H k v Hin.
  - inversion Hin.
  - rewrite setValues_cons in H.
    destruct (setValue k0 v0 settings w) as [[[] | e] w1] eqn:E; [| discriminate].
    cbn [map fst] in Hnd. apply NoDup_cons in Hnd as [Hk0 Hnd].
    apply elem_of_cons in Hin as [[= -> ->] | Hin].
    + destruct (Hplain k0 v0 ltac:(left)) as (Hd & a & Ha & Hty).
      pose proof (setValue_plain_value _ _ _ _ _ _ Ha Hty Hd E) as H1.
      rewrite <- (setValues_other _ _ _ _ _ Hk0 H) in H1.
      rewrite (getValue_present _ _ _ H1). cbn [with_value attrType attrValue].
      rewrite Hty. reflexivity.
    + apply (IH w1); try assumption.
      intros k' v' Hin'. destruct (Hplain k' v' ltac:(right; exact Hin')) as (Hd & a & Ha & Hty).
      split; [exact Hd |]. exists a. split; [| exact Hty].
      destruct (setValue_ok_inv _ _ _ _ _ E) as (a0 & val & _ & _ & _ & _ & ->).
      cbn [attributes]. rewrite lookup_alter_ne; [exact Ha |].
      intros ->. apply Hk0. apply list_elem_of_In, in_map_iff.
      exists (k', v'). split; [reflexivity | apply list_elem_of_In; exact Hin'].
Qed.

(** X8. The read operations of [Attribute], [Control] and [SubGrid] never
    change the page, whether they return or throw. *)
Theorem queries_leave_page_unchanged (w : World) (name : string) :
  snd (getValue name w) = w
  /\ snd (getRequiredLevel name w) = w
  /\ snd (getAttributeType name w) = w
  /\ snd (getFormattedValue name w) = w
  /\ snd (isDirty name w) = w
  /\ snd (Control.get name w) = w
  /\ snd (Control.getOptions name w) = w
  /\ snd (Control.getLabel name w) = w
  /\ snd (SubGrid.getRecordCount name w) = w
  /\ snd (SubGrid.getVisibleRecordCount name w) = w
  /\ snd (SubGrid.getEntityName name w) = w
  /\ snd (SubGrid.getRecordIds name w) = w
  /\ snd (SubGrid.isVisible name w) = w.
Proof.
  split.
  { destruct (attributes w !! name) as [a |] eqn:Ha.
    - rewrite (getValue_present _ _ _ Ha).
      destruct (String.eqb (attrType a) "datetime"); [| reflexivity].
      destruct (attrValue a) as [| | b | n | s | [t |]]; reflexivity.
    - cbv [getValue getValue_inPage bind waitForXrmReady ret throw getAttribute].
      rewrite Ha. reflexivity. }
  repeat apply conj;
    cbv [getRequiredLevel getAttributeType
         getFormattedValue isDirty Control.get Control.getOptions Control.getLabel
         SubGrid.getRecordCount SubGrid.getVisibleRecordCount SubGrid.getEntityName
         SubGrid.getRecordIds SubGrid.isVisible SubGrid.getGrid
         bind waitForXrmReady ret throw getAttribute getControl];
    try (destruct (attributes w !! name) as [a |]; reflexivity);
    (destruct (controls w !! name) as [c |]; [| reflexivity]);
    try reflexivity;
    destruct (ctlGrid c); reflexivity.
Qed.

End GateMore.

Section ControlMore.
Import Attribute.

Lemma Control_get_present w c ctl :
  controls w !! c = Some ctl ->
  Control.get c w
  = (Ok {| Control.isVisible := ctlVisible ctl && parents_visible ctl;
           Control.isDisabled := ctlDisabled ctl |}, w).
Proof.
  intros H. cbv [Control.get bind waitForXrmReady ret getControl]. rewrite H.
  unfold parents_visible. rewrite andb_assoc. reflexivity.
Qed.

Lemma control_editable_split ctl :
  control_editable ctl = negb (ctlDisabled ctl) && (ctlVisible ctl && parents_visible ctl).
Proof. unfold control_editable, parents_visible. rewrite !andb_assoc. reflexivity. Qed.


(** X9. Without [forceValue], [setValue] goes through exactly when one of the
    attribute's controls is reported visible and not disabled by
    [Control.get]: the two copies of the visibility test agree. *)
Theorem gate_agrees_with_control_state
    (w : World) (name : string) (a : XrmAttribute) (value : JsValue)
    (settings : SettingsArg) :
  attributes w !! name = Some a ->
  isInvalidDate value = false ->
  forced (safeSettings settings) = false ->
  (fst (setValue name value settings w) = Ok tt
   <-> exists c st,
         c ∈ attrControls a
         /\ Control.get c w = (Ok st, w)
         /\ Control.isVisible st = true
         /\ Control.isDisabled st = false).
Proof.
  intros Ha Hv Hf.
  destruct (setValue_returns_iff name value settings w a Ha Hv) as [-> _].
  unfold editable. rewrite Hf. cbn [orb]. rewrite existsb_exists. split.
  - intros (ctl & Hin & Hed).
    apply list_elem_of_In, list_elem_of_omap in Hin as (c & Hc & Hl).
    exists c, {| Control.isVisible := ctlVisible ctl && parents_visible ctl;
                 Control.isDisabled := ctlDisabled ctl |}.
    rewrite control_editable_split in Hed. apply andb_true_iff in Hed as [Hd Hvis].
    split; [exact Hc |]. split; [apply Control_get_present, Hl |].
    cbn. split; [exact Hvis | destruct (ctlDisabled ctl); [discriminate | reflexivity]].
  - intros (c & st & Hc & Hget & Hvis & Hdis).
    destruct (controls w !! c) as [ctl |] eqn:Hl.
    + rewrite (Control_get_present _ _ _ Hl) in Hget. injection Hget as <-.
      cbn in Hvis, Hdis. exists ctl. split.
      * apply list_elem_of_In, list_elem_of_omap. exists c. split; assumption.
      * rewrite control_editable_split, Hdis, Hvis. reflexivity.
    + revert Hget. cbv [Control.get bind waitForXrmReady ret throw getControl].
      rewrite Hl. discriminate.
Qed.


(** X11. On a control of the form: [getLabel] after [setLabel] returns the
    label; [get] after [setDisabled] reports the flag set and the
    visibility as before; [get] after [setVisible(v)] reports [v] only if
    the containers are visible too, so a control made visible inside a
    hidden section still reads as not visible. *)
Theorem control_setters_round_trip (w : World) (c : string) (ctl : XrmControl) :
  controls w !! c = Some ctl ->
  (forall label, exists w',
      Control.setLabel c label w = (Ok tt, w')
      /\ Control.getLabel c w' = (Ok label, w'))
  /\ (forall d, exists w',
        Control.setDisabled c d w = (Ok tt, w')
        /\ Control.get c w'
           = (Ok {| Control.isVisible := ctlVisible ctl && parents_visible ctl;
                    Control.isDisabled := d |}, w'))
  /\ (forall v, exists w',
        Control.setVisible c v w = (Ok tt, w')
        /\ Control.get c w'
           = (Ok {| Control.isVisible := v && parents_visible ctl;
                    Control.isDisabled := ctlDisabled ctl |}, w')).
Proof.
  intros Hc.
  assert (Hl : forall f, alter f c (controls w) !! c = Some (f ctl)).
  { intros f. rewrite lookup_alter, Hc. case_decide; [reflexivity | congruence]. }
  repeat split; intros x; eexists; (split; [
    cbv [Control.setLabel Control.setDisabled Control.setVisible bind waitForXrmReady
         ret getControl host_alterControl]; rewrite Hc; reflexivity |]).
  - cbv [Control.getLabel bind waitForXrmReady ret getControl]. cbn [controls].
    rewrite Hl. reflexivity.
  - erewrite Control_get_present by (cbn [controls]; apply Hl). reflexivity.
  - erewrite Control_get_present by (cbn [controls]; apply Hl). reflexivity.
Qed.

(** X12. [setVisible], [setDisabled] and [setLabel] change the named control
    only: attributes, log, URL and the other controls stay as they were,
    and the control keeps its parent, grid and options. *)
Theorem control_setters_touch_one_control
    (w : World) (c : string) (ctl : XrmControl) (b : bool) (label : string) :
  controls w !! c = Some ctl ->
  forall op, In op [Control.setVisible c b; Control.setDisabled c b; Control.setLabel c label] ->
  exists w' ctl',
    op w = (Ok tt, w')
    /\ attributes w' = attributes w
    /\ trace w' = trace w
    /\ pageUrl w' = pageUrl w
    /\ (forall other, other <> c -> controls w' !! other = controls w !! other)
    /\ controls w' !! c = Some ctl'
    /\ ctlParent ctl' = ctlParent ctl
    /\ ctlGrid ctl' = ctlGrid ctl
    /\ ctlOptions ctl' = ctlOptions ctl.
Proof.
  intros Hc op Hop.
  assert (Hl : forall f, alter f c (controls w) !! c = Some (f ctl)).
  { intros f. rewrite lookup_alter, Hc. case_decide; [reflexivity | congruence]. }
  cbn [In] in Hop. destruct Hop as [<- | [<- | [<- | []]]];
    eexists; eexists; (split; [
      cbv [Control.setLabel Control.setDisabled Control.setVisible bind waitForXrmReady
           ret getControl host_alterControl]; rewrite Hc; reflexivity |]);
    cbn [attributes trace pageUrl controls];
    (split; [reflexivity |]); (split; [reflexivity |]); (split; [reflexivity |]);
    (split; [intros other Hne; apply lookup_alter_ne; congruence |]);
    (split; [apply Hl |]); repeat split.
Qed.

End ControlMore.

Section SubGridMore.
Import SubGrid.

Lemma openNthRecord_on_grid w name ctl grid n :
  controls w !! name = Some ctl ->
  ctlGrid ctl = Some grid ->
  openNthRecord name n w
  = if (Z.of_nat (length (gridRows grid)) <=? n)%Z
    then (Err (OutOfRange n (length (gridRows grid))), w)
    else match (if (n <? 0)%Z then None else gridRows grid !! Z.to_nat n) with
         | Some row =>
             (Ok (rowRefId row, rowEntityType row),
              {| attributes :=
                   formAttributes
                     (served w (entityFormUrl (pageUrl w) (rowEntityType row) (rowRefId row)));
                 controls :=
                   formControls
                     (served w (entityFormUrl (pageUrl w) (rowEntityType row) (rowRefId row)));
                 pageUrl := entityFormUrl (pageUrl w) (rowEntityType row) (rowRefId row);
                 trace := trace w ++ [EvGoto (entityFormUrl (pageUrl w) (rowEntityType row)
                                                (rowRefId row))];
                 served := served w |})
         | None => (Err TypeError, w)
         end.
Proof.
  intros Hc Hg.
  cbv [openNthRecord bind waitForXrmReady ret throw getControl getGrid getWorld page_goto].
  rewrite Hc, Hg.
  destruct (Z.of_nat (length (gridRows grid)) <=? n)%Z; [reflexivity |].
  destruct (if (n <? 0)%Z then None else gridRows grid !! Z.to_nat n); reflexivity.
Qed.

(** X13. On a subgrid, [openNthRecord] with an index at or beyond the number of
    rows fails with the "out of range" error and leaves the page
    unchanged; with an index within the rows it returns the identifier and
    the entity type of that row's entity reference and navigates once, to
    the record's form URL: the page is then the form the application
    displays there. *)
Theorem openNthRecord_bounds
    (w : World) (name : string) (ctl : XrmControl) (grid : XrmGrid) (n : Z) :
  controls w !! name = Some ctl ->
  ctlGrid ctl = Some grid ->
  ((Z.of_nat (length (gridRows grid)) <= n)%Z ->
   openNthRecord name n w = (Err (OutOfRange n (length (gridRows grid))), w))
  /\ ((0 <= n < Z.of_nat (length (gridRows grid)))%Z ->
      exists row,
        gridRows grid !! Z.to_nat n = Some row
        /\ fst (openNthRecord name n w) = Ok (rowRefId row, rowEntityType row)
        /\ pageUrl (snd (openNthRecord name n w))
           = entityFormUrl (pageUrl w) (rowEntityType row) (rowRefId row)
        /\ trace (snd (openNthRecord name n w))
           = trace w ++ [EvGoto (entityFormUrl (pageUrl w) (rowEntityType row) (rowRefId row))]
        /\ attributes (snd (openNthRecord name n w))
           = formAttributes
               (served w (entityFormUrl (pageUrl w) (rowEntityType row) (rowRefId row)))
        /\ controls (snd (openNthRecord name n w))
           = formControls
               (served w (entityFormUrl (pageUrl w) (rowEntityType row) (rowRefId row)))).
Proof.
  intros Hc Hg. rewrite (openNthRecord_on_grid _ _ _ _ _ Hc Hg). split.
  - intros Hn. apply Z.leb_le in Hn. rewrite Hn. reflexivity.
  - intros [H0 Hn].
    assert ((Z.of_nat (length (gridRows grid)) <=? n)%Z = false) as -> by (apply Z.leb_gt; lia).
    assert ((n <? 0)%Z = false) as -> by (apply Z.ltb_ge; lia).
    destruct (lookup_lt_is_Some_2 (gridRows grid) (Z.to_nat n) ltac:(lia)) as [row Hrow].
    exists row. rewrite Hrow. cbn [fst snd pageUrl trace attributes controls].
    split; [reflexivity |]. split; [reflexivity |]. split; [reflexivity |].
    split; [reflexivity |]. split; reflexivity.
Qed.

(** X15. When [getVisibleRecordCount] returns a number, [getRecordIds] returns
    that many identifiers. *)
Theorem visible_count_is_number_of_ids (w : World) (name : string) (n : Z) :
  getVisibleRecordCount name w = (Ok (Some n), w) ->
  exists ids, getRecordIds name w = (Ok ids, w) /\ Z.of_nat (length ids) = n.
Proof.
  cbv [getVisibleRecordCount getRecordIds bind waitForXrmReady ret getControl getGrid throw].
  destruct (controls w !! name) as [ctl |]; [| discriminate].
  destruct (ctlGrid ctl) as [grid |]; [| discriminate].
  intros [= <-]. eexists. split; [reflexivity |].
  rewrite collectIds_map. cbn [app]. rewrite length_map. reflexivity.
Qed.

Lemma lower_char_fixed c : normal_char c = true -> lower_char c = c.
Proof.
  unfold normal_char, lower_char. destruct (is_upper c); [| reflexivity].
  rewrite andb_false_r. discriminate.
Qed.

Lemma normalizeId_fixed s : string_forallb normal_char s = true -> normalizeId s = s.
Proof.
  unfold normalizeId. induction s as [| c s IH]; [reflexivity |].
  cbn [string_forallb remove_braces]. intros H. apply andb_true_iff in H as [Hc Hs].
  assert (is_brace c = false) as ->.
  { unfold normal_char in Hc. destruct (is_brace c); [discriminate | reflexivity]. }
  cbn [toLowerCase]. rewrite (lower_char_fixed _ Hc), (IH Hs). reflexivity.
Qed.

Lemma remove_braces_app s1 s2 :
  remove_braces (s1 +:+ s2) = remove_braces s1 +:+ remove_braces s2.
Proof.
  induction s1 as [| c s1 IH]; [reflexivity |].
  change (String c s1 +:+ s2) with (String c (s1 +:+ s2)).
  cbn [remove_braces]. destruct (is_brace c); [exact IH |].
  change (String c (remove_braces s1) +:+ remove_braces s2)
    with (String c (remove_braces s1 +:+ remove_braces s2)).
  f_equal. exact IH.
Qed.

(** X16. Identifier normalization is canonical: an identifier without braces
    and upper-case letters is left as it is, normalizing twice is
    normalizing once, and an identifier wrapped in braces normalizes like
    the bare one. *)
Theorem normalizeId_canonical (s : string) :
  (string_forallb normal_char s = true -> normalizeId s = s)
  /\ normalizeId (normalizeId s) = normalizeId s
  /\ normalizeId ("{" +:+ s +:+ "}") = normalizeId s.
Proof.
  split; [apply normalizeId_fixed |]. split.
  - apply normalizeId_fixed, normalizeId_normal.
  - unfold normalizeId. f_equal.
    change ("{" +:+ s +:+ "}") with (String "{" (s +:+ "}")).
    cbn [remove_braces]. change (is_brace "{") with true. cbn iota.
    rewrite remove_braces_app.
    change (remove_braces "}") with "".
    induction (remove_braces s) as [| c r IH]; [reflexivity |].
    change (String c r +:+ "") with (String c (r +:+ "")). f_equal. exact IH.
Qed.

(** X17. [url.split(sep)[0]]: the URL is the part kept followed by a rest that
    is empty or starts with the separator, and the separator occurs
    nowhere earlier. *)
Theorem before_first_splits_at_first_occurrence (sep s : string) :
  exists rest,
    s = before_first sep s +:+ rest
    /\ (rest = "" \/ String.prefix sep rest = true)
    /\ (forall a b, before_first sep s = a +:+ b -> b <> "" ->
                    String.prefix sep (b +:+ rest) = false).
Proof.
  induction s as [| c s IH].
  - exists "". cbn [before_first]. destruct (String.prefix sep ""); cbn;
      (split; [reflexivity |]); (split; [left; reflexivity |]);
      intros [| x a] [| y b] E Hb; try discriminate; congruence.
  - cbn [before_first]. destruct (String.prefix sep (String c s)) eqn:Hp.
    + exists (String c s). split; [reflexivity |]. split; [right; exact Hp |].
      intros [| x a] [| y b] E Hb; try discriminate; congruence.
    + destruct IH as (rest & Hs & Hrest & Hmin). exists rest.
      split; [| split].
      * change (String c (before_first sep s) +:+ rest)
          with (String c (before_first sep s +:+ rest)).
        rewrite <- Hs. reflexivity.
      * exact Hrest.
      * intros [| x a] b E Hb.
        -- change ("" +:+ b) with b in E. subst b.
           change (String c (before_first sep s) +:+ rest)
             with (String c (before_first sep s +:+ rest)).
           rewrite <- Hs. exact Hp.
        -- change (String x a +:+ b) with (String x (a +:+ b)) in E.
           injection E as _ E. apply (Hmin a b E Hb).
Qed.

End SubGridMore.

Section PayloadKeys.

Lemma obj_set_fresh k v o : k ∉ obj_keys o -> obj_set k v o = o ++ [(k, v)].
Proof.
  unfold obj_keys. induction o as [| [k0 v0] o IH]; intros Hk; [reflexivity |].
  cbn [map fst] in Hk. apply not_elem_of_cons in Hk as [Hne Hk].
  cbn [obj_set app]. destruct (String.eqb k k0) eqn:E.
  - apply String.eqb_eq in E. contradiction.
  - rewrite (IH Hk). reflexivity.
Qed.

Lemma assign_when_keys k g o rl :
  obj_keys o `sublist_of` rev rl ->
  k ∉ rl ->
  obj_keys (assign_when k g o) `sublist_of` rev (k :: rl).
Proof.
  intros Hsub Hk. cbn [rev]. destruct g as [v |]; cbn [assign_when].
  - rewrite obj_set_fresh.
    + unfold obj_keys in *. rewrite map_app. apply sublist_app; [exact Hsub | reflexivity].
    + intros Hin. apply Hk. apply (sublist_subseteq _ _ Hsub) in Hin.
      apply list_elem_of_In, in_rev in Hin. apply list_elem_of_In. exact Hin.
  - apply sublist_inserts_r, Hsub.
Qed.


Lemma assign_when_cons k g k0 v0 o :
  String.eqb k k0 = false ->
  assign_when k g ((k0, v0) :: o) = (k0, v0) :: assign_when k g o.
Proof. intros E. destruct g; cbn [assign_when obj_set]; rewrite ?E; reflexivity. Qed.

Ltac keys_chain :=
  repeat (apply assign_when_keys;
          [| apply (bool_decide_unpack _); vm_compute; exact I]).

(** X18. The property names of a payload built by [create] are a subsequence
    of the interface's names in declaration order, without repeats, and
    start with [name] (accounts) or [firstname], [lastname] (contacts). *)
Theorem payload_keys_follow_interface
    (ao : AccountFactory.CreateAccountOptions)
    (co : ContactFactory.CreateContactOptions) (clock : Clock) :
  let account := fst (AccountFactory.create ao clock) in
  let contact := fst (ContactFactory.create co clock) in
  (obj_keys account `sublist_of` account_data_keys
   /\ NoDup (obj_keys account)
   /\ head (obj_keys account) = Some "name")
  /\ (obj_keys contact `sublist_of` contact_data_keys
      /\ NoDup (obj_keys contact)
      /\ take 2 (obj_keys contact) = ["firstname"; "lastname"]).
Proof.
  intros account contact.
  assert (Ha : obj_keys account `sublist_of` account_data_keys).
  { subst account. unfold AccountFactory.create, getTimestamp. cbn [fst].
    change account_data_keys
      with (rev [ "primarycontactid@odata.bind"; "parentaccountid@odata.bind";
                  "description"; "numberofemployees"; "revenue"; "industrycode";
                  "address1_country"; "address1_postalcode";
                  "address1_stateorprovince"; "address1_city"; "address1_line1";
                  "websiteurl"; "emailaddress1"; "telephone2"; "telephone1"; "name" ]).
    keys_chain. reflexivity. }
  assert (Hc : obj_keys contact `sublist_of` contact_data_keys).
  { subst contact. unfold ContactFactory.create, getTimestamp. cbn [fst].
    change contact_data_keys
      with (rev [ "parentcustomerid_account@odata.bind"; "preferredcontactmethodcode";
                  "description"; "jobtitle"; "mobilephone"; "telephone1";
                  "emailaddress1"; "lastname"; "firstname" ]).
    keys_chain. reflexivity. }
  repeat apply conj.
  - exact Ha.
  - eapply sublist_NoDup; [| exact Ha]. apply (bool_decide_unpack _). vm_compute. exact I.
  - subst account. unfold AccountFactory.create, getTimestamp. cbn [fst].
    rewrite !assign_when_cons by reflexivity. reflexivity.
  - exact Hc.
  - eapply sublist_NoDup; [| exact Hc]. apply (bool_decide_unpack _). vm_compute. exact I.
  - subst contact. unfold ContactFactory.create, getTimestamp. cbn [fst].
    rewrite !assign_when_cons by reflexivity. reflexivity.
Qed.

End PayloadKeys.

Section FactoryMore.

Lemma truthy_string_copy x s :
  x = Some s -> String.eqb s "" = false -> truthy_string x = Some (JStr s).
Proof. intros -> E. unfold truthy_string. rewrite E. reflexivity. Qed.

(** X19. Every string option given a non-empty value is copied unchanged
    under its entity field name, in both factories. *)
Theorem nonempty_options_copied
    (ao : AccountFactory.CreateAccountOptions)
    (co : ContactFactory.CreateContactOptions) (clock : Clock) (s : string) :
  String.eqb s "" = false ->
  let account := fst (AccountFactory.create ao clock) in
  let contact := fst (ContactFactory.create co clock) in
  ((AccountFactory.phone ao = Some s -> obj_get "telephone1" account = Some (JStr s))
   /\ (AccountFactory.secondaryPhone ao = Some s ->
       obj_get "telephone2" account = Some (JStr s))
   /\ (AccountFactory.email ao = Some s -> obj_get "emailaddress1" account = Some (JStr s))
   /\ (AccountFactory.website ao = Some s -> obj_get "websiteurl" account = Some (JStr s))
   /\ (AccountFactory.addressLine1 ao = Some s ->
       obj_get "address1_line1" account = Some (JStr s))
   /\ (AccountFactory.city ao = Some s -> obj_get "address1_city" account = Some (JStr s))
   /\ (AccountFactory.state ao = Some s ->
       obj_get "address1_stateorprovince" account = Some (JStr s))
   /\ (AccountFactory.postalCode ao = Some s ->
       obj_get "address1_postalcode" account = Some (JStr s))
   /\ (AccountFactory.country ao = Some s ->
       obj_get "address1_country" account = Some (JStr s))
   /\ (AccountFactory.description ao = Some s ->
       obj_get "description" account = Some (JStr s)))
  /\ ((ContactFactory.email co = Some s -> obj_get "emailaddress1" contact = Some (JStr s))
      /\ (ContactFactory.phone co = Some s -> obj_get "telephone1" contact = Some (JStr s))
      /\ (ContactFactory.mobile co = Some s -> obj_get "mobilephone" contact = Some (JStr s))
      /\ (ContactFactory.jobTitle co = Some s -> obj_get "jobtitle" contact = Some (JStr s))
      /\ (ContactFactory.description co = Some s ->
          obj_get "description" contact = Some (JStr s))).
Proof.
  intros Hs account contact.
  destruct (account_fields ao clock)
    as ((H1 & H2 & H3 & H4 & H5 & H6 & H7 & H8 & H9 & H10) & _).
  destruct (contact_fields co clock) as ((C1 & C2 & C3 & C4 & C5) & _).
  fold account in H1, H2, H3, H4, H5, H6, H7, H8, H9, H10.
  fold contact in C1, C2, C3, C4, C5.
  rewrite H1, H2, H3, H4, H5, H6, H7, H8, H9, H10, C1, C2, C3, C4, C5.
  repeat apply conj; intros E; apply (truthy_string_copy _ _ E Hs).
Qed.

Lemma contact_names options clock :
  obj_get "firstname" (fst (ContactFactory.create options clock))
  = Some (JStr (if is_truthy (ContactFactory.firstname options)
                then default "" (ContactFactory.firstname options) else "Test"))
  /\ obj_get "lastname" (fst (ContactFactory.create options clock))
     = Some (JStr (if is_truthy (ContactFactory.lastname options)
                   then default "" (ContactFactory.lastname options)
                        +:+ " " +:+ number_to_string (clock O)
                   else "Contact " +:+ number_to_string (clock O))).
Proof.
  unfold ContactFactory.create, getTimestamp. cbn [fst].
  split; rewrite !obj_get_assign_when_ne by reflexivity; reflexivity.
Qed.

Lemma app_nonempty_l (a b : string) : String.eqb a "" = false -> String.eqb (a +:+ b) "" = false.
Proof. destruct a; [discriminate | reflexivity]. Qed.

Lemma is_truthy_default x :
  is_truthy x = true -> String.eqb (default "" x) "" = false.
Proof.
  destruct x as [s |]; [| discriminate]. cbn. intros H.
  destruct (String.eqb s ""); [discriminate | reflexivity].
Qed.

(** X20. Whatever the options, an account payload has a non-empty [name] and a
    contact payload a non-empty [firstname] and [lastname]. *)
Theorem required_names_never_empty
    (ao : AccountFactory.CreateAccountOptions)
    (co : ContactFactory.CreateContactOptions) (clock : Clock) :
  (exists s, obj_get "name" (fst (AccountFactory.create ao clock)) = Some (JStr s)
             /\ String.eqb s "" = false)
  /\ (exists s, obj_get "firstname" (fst (ContactFactory.create co clock)) = Some (JStr s)
                /\ String.eqb s "" = false)
  /\ (exists s, obj_get "lastname" (fst (ContactFactory.create co clock)) = Some (JStr s)
                /\ String.eqb s "" = false).
Proof.
  destruct (contact_names co clock) as [Hf Hl].
  repeat apply conj; eexists; (split; [first [apply create_name | exact Hf | exact Hl] |]).
  - destruct (is_truthy (AccountFactory.name ao)) eqn:E; [| reflexivity].
    apply app_nonempty_l, is_truthy_default, E.
  - destruct (is_truthy (ContactFactory.firstname co)) eqn:E; [| reflexivity].
    apply is_truthy_default, E.
  - destruct (is_truthy (ContactFactory.lastname co)) eqn:E; [| reflexivity].
    apply app_nonempty_l, is_truthy_default, E.
Qed.

Lemma name_with_reading_inj (prefix : string) (x y : Z) :
  prefix +:+ number_to_string x = prefix +:+ number_to_string y -> x = y.
Proof. intros E. apply app_cancel_l in E. exact (pretty_Z_inj _ _ E). Qed.

(** X21. Two [create] calls with the same options build the same payload
    exactly when [Date.now()] gave them the same reading: the timestamp
    is the only source of uniqueness. *)
Theorem same_payload_iff_same_clock_reading
    (ao : AccountFactory.CreateAccountOptions)
    (co : ContactFactory.CreateContactOptions) (c1 c2 : Clock) :
  (fst (AccountFactory.create ao c1) = fst (AccountFactory.create ao c2) <-> c1 O = c2 O)
  /\ (fst (ContactFactory.create co c1) = fst (ContactFactory.create co c2) <-> c1 O = c2 O).
Proof.
  split; split.
  - intros E. apply (f_equal (obj_get "name")) in E. rewrite !create_name in E.
    injection E as E. destruct (is_truthy (AccountFactory.name ao)).
    + rewrite <- !app_assoc_string in E. eapply name_with_reading_inj, E.
    + eapply name_with_reading_inj, E.
  - intros E. unfold AccountFactory.create, getTimestamp. cbn [fst]. rewrite E. reflexivity.
  - intros E. apply (f_equal (obj_get "lastname")) in E.
    destruct (contact_names co c1) as [_ H1]. destruct (contact_names co c2) as [_ H2].
    rewrite H1, H2 in E. injection E as E.
    destruct (is_truthy (ContactFactory.lastname co)).
    + rewrite <- !app_assoc_string in E. eapply name_with_reading_inj, E.
    + eapply name_with_reading_inj, E.
  - intros E. unfold ContactFactory.create, getTimestamp. cbn [fst]. rewrite E. reflexivity.
Qed.

End FactoryMore.

Section BulkMore.

Lemma contact_create_snd options clock :
  snd (ContactFactory.create options clock) = fun k => clock (S k).
Proof. reflexivity. Qed.

Lemma contact_createBulk_loop_spec options fuel : forall i contacts clock,
  fst (ContactFactory.createBulk_loop fuel i options contacts clock)
  = contacts ++ map (fun j => fst (ContactFactory.create
                                     (ContactFactory.bulk_options options (i + j))
                                     (fun k => clock (j + k)%nat)))
                    (seq 0 fuel).
Proof.
  induction fuel as [| fuel IH]; intros i contacts clock.
  - cbn [ContactFactory.createBulk_loop fst seq map]. rewrite app_nil_r. reflexivity.
  - cbn [ContactFactory.createBulk_loop].
    rewrite (surjective_pairing
               (ContactFactory.create (ContactFactory.bulk_options options i) clock)).
    rewrite IH, contact_create_snd, <- app_assoc. f_equal.
    cbn [seq map app]. f_equal.
    + rewrite Nat.add_0_r. reflexivity.
    + rewrite <- seq_shift, map_map. apply map_ext. intros j.
      rewrite Nat.add_succ_r. reflexivity.
Qed.

Lemma account_loop_clock options fuel : forall i accounts clock k,
  snd (AccountFactory.createBulk_loop fuel i options accounts clock) k = clock (fuel + k)%nat.
Proof.
  induction fuel as [| fuel IH]; intros i accounts clock k; [reflexivity |].
  cbn [AccountFactory.createBulk_loop].
  rewrite (surjective_pairing
             (AccountFactory.create (AccountFactory.bulk_options options i) clock)).
  rewrite IH, create_snd. reflexivity.
Qed.

Lemma contact_loop_clock options fuel : forall i contacts clock k,
  snd (ContactFactory.createBulk_loop fuel i options contacts clock) k = clock (fuel + k)%nat.
Proof.
  induction fuel as [| fuel IH]; intros i contacts clock k; [reflexivity |].
  cbn [ContactFactory.createBulk_loop].
  rewrite (surjective_pairing
             (ContactFactory.create (ContactFactory.bulk_options options i) clock)).
  rewrite IH, contact_create_snd. reflexivity.
Qed.

(** X22. [createBulk] with a count of zero or less returns no payload and reads
    no timestamp; in general it reads as many timestamps as it builds
    payloads. *)
Theorem createBulk_clock_and_empty_counts
    (ao : AccountFactory.CreateAccountOptions)
    (co : ContactFactory.CreateContactOptions) (clock : Clock) (n : Z) :
  ((n <= 0)%Z ->
   AccountFactory.createBulk n ao clock = ([], clock)
   /\ ContactFactory.createBulk n co clock = ([], clock))
  /\ (forall k, snd (AccountFactory.createBulk n ao clock) k = clock (Z.to_nat n + k)%nat)
  /\ (forall k, snd (ContactFactory.createBulk n co clock) k = clock (Z.to_nat n + k)%nat).
Proof.
  split; [| split].
  - intros Hn. unfold AccountFactory.createBulk, ContactFactory.createBulk.
    assert (Z.to_nat n = O) as -> by lia. split; reflexivity.
  - intros k. apply account_loop_clock.
  - intros k. apply contact_loop_clock.
Qed.

Lemma contact_bulk_truthy options i :
  is_truthy (ContactFactory.lastname (ContactFactory.bulk_options options i)) = true.
Proof.
  unfold ContactFactory.bulk_options, ContactFactory.with_lastname.
  cbn [ContactFactory.lastname].
  destruct (ContactFactory.lastname options) as [[| c s] |]; reflexivity.
Qed.

Lemma contact_bulk_lastname options i clock :
  obj_get "lastname" (fst (ContactFactory.create (ContactFactory.bulk_options options i) clock))
  = Some (JStr ((if is_truthy (ContactFactory.lastname options)
                 then default "" (ContactFactory.lastname options)
                 else "Bulk Contact")
                +:+ " " +:+ number_to_string (Z.of_nat i + 1)
                +:+ " " +:+ number_to_string (clock O))).
Proof.
  destruct (contact_names (ContactFactory.bulk_options options i) clock) as [_ ->].
  rewrite contact_bulk_truthy.
  unfold ContactFactory.bulk_options, ContactFactory.with_lastname.
  cbn [ContactFactory.lastname default from_option].
  destruct (is_truthy (ContactFactory.lastname options)).
  - unfold id. rewrite app_assoc_string. reflexivity.
  - reflexivity.
Qed.

Lemma contact_without_lastname options n clock clock' :
  obj_without "lastname" (fst (ContactFactory.create (ContactFactory.with_lastname options n) clock))
  = obj_without "lastname" (fst (ContactFactory.create options clock')).
Proof.
  unfold ContactFactory.create, getTimestamp. cbn [fst].
  rewrite !obj_without_assign_when by reflexivity. reflexivity.
Qed.

(** X23. For a count [n >= 0], [ContactFactory.createBulk] returns [n]
    payloads whose last names end in the index and the timestamp and are
    pairwise distinct, and whose other properties are those of
    [create options]. *)
Theorem contact_createBulk_spec
    (n : Z) (options : ContactFactory.CreateContactOptions) (clock clock' : Clock) :
  (0 <= n)%Z ->
  let contacts := fst (ContactFactory.createBulk n options clock) in
  let base := if is_truthy (ContactFactory.lastname options)
              then default "" (ContactFactory.lastname options)
              else "Bulk Contact" in
  Z.of_nat (length contacts) = n
  /\ (forall i contact,
        contacts !! i = Some contact ->
        obj_get "lastname" contact
          = Some (JStr (base +:+ " " +:+ number_to_string (Z.of_nat i + 1)
                        +:+ " " +:+ number_to_string (clock i)))
        /\ obj_without "lastname" contact
           = obj_without "lastname" (fst (ContactFactory.create options clock')))
  /\ (forall i j a b,
        contacts !! i = Some a -> contacts !! j = Some b ->
        obj_get "lastname" a = obj_get "lastname" b -> i = j).
Proof.
  intros Hn contacts base.
  assert (Hacc : contacts
                 = map (fun j => fst (ContactFactory.create
                                        (ContactFactory.bulk_options options j)
                                        (fun k => clock (j + k)%nat)))
                       (seq 0 (Z.to_nat n))).
  { subst contacts. unfold ContactFactory.createBulk.
    rewrite contact_createBulk_loop_spec. reflexivity. }
  assert (Hlook : forall i contact, contacts !! i = Some contact ->
            contact = fst (ContactFactory.create (ContactFactory.bulk_options options i)
                             (fun k => clock (i + k)%nat))).
  { intros i contact Hi. rewrite Hacc in Hi.
    change (map ?f ?l) with (f <$> l) in Hi.
    rewrite list_lookup_fmap in Hi.
    destruct (seq 0 (Z.to_nat n) !! i) as [j |] eqn:Ej; [| discriminate].
    apply lookup_seq in Ej as [-> Hlt]. injection Hi as <-. reflexivity. }
  assert (Hname : forall i contact, contacts !! i = Some contact ->
            obj_get "lastname" contact
            = Some (JStr (base +:+ " " +:+ number_to_string (Z.of_nat i + 1)
                          +:+ " " +:+ number_to_string (clock i)))).
  { intros i contact Hi. rewrite (Hlook _ _ Hi).
    rewrite contact_bulk_lastname, Nat.add_0_r. reflexivity. }
  split; [| split].
  - rewrite Hacc, length_map, length_seq. lia.
  - intros i contact Hi. split; [apply Hname, Hi |].
    rewrite (Hlook _ _ Hi). apply contact_without_lastname.
  - intros i j a b Hi Hj E.
    rewrite (Hname _ _ Hi), (Hname _ _ Hj) in E. injection E as E.
    apply numbered_name_inj in E; lia.
Qed.

End BulkMore.

Section ConfigMore.
Import TestConfiguration.

Lemma env_or_empty_empty env name :
  String.eqb (env_or_empty env name) "" = true
  <-> env !! name = None \/ env !! name = Some "".
Proof.
  unfold env_or_empty. destruct (env !! name) as [v |].
  - destruct (String.eqb v "") eqn:E.
    + apply String.eqb_eq in E. subst v. split; [right; reflexivity | reflexivity].
    + rewrite E. split; [discriminate |].
      intros [H | H]; [discriminate |]. injection H as ->. discriminate.
  - split; [left; reflexivity | reflexivity].
Qed.

Lemma env_or_empty_set env name :
  String.eqb (env_or_empty env name) "" = false
  <-> exists v, env !! name = Some v /\ String.eqb v "" = false.
Proof.
  split.
  - intros H. destruct (env !! name) as [v |] eqn:E.
    + exists v. split; [reflexivity |].
      destruct (String.eqb v "") eqn:Ev; [| reflexivity].
      apply String.eqb_eq in Ev. subst v.
      assert (String.eqb (env_or_empty env name) "" = true) as Ht
        by (apply env_or_empty_empty; right; exact E).
      congruence.
    + assert (String.eqb (env_or_empty env name) "" = true) as Ht
        by (apply env_or_empty_empty; left; exact E).
      congruence.
  - intros (v & E & Hv). destruct (String.eqb (env_or_empty env name) "") eqn:Ht; [| reflexivity].
    apply env_or_empty_empty in Ht as [Ht | Ht]; rewrite E in Ht; [discriminate |].
    injection Ht as ->. discriminate.
Qed.

(** X24. [validateConfig] returns exactly when [MDA_URL], [O365_USERNAME] and
    [O365_PASSWORD] are all set to non-empty values. *)
Theorem validateConfig_passes_iff_all_set (env : gmap string string) :
  validateConfig (testConfig env) = inl tt
  <-> (exists v, env !! "MDA_URL" = Some v /\ String.eqb v "" = false)
      /\ (exists v, env !! "O365_USERNAME" = Some v /\ String.eqb v "" = false)
      /\ (exists v, env !! "O365_PASSWORD" = Some v /\ String.eqb v "" = false).
Proof.
  rewrite <- !env_or_empty_set.
  unfold validateConfig, missing_variables, push_if_empty, testConfig.
  cbn [mdaUrl username password].
  destruct (String.eqb (env_or_empty env "MDA_URL") ""),
           (String.eqb (env_or_empty env "O365_USERNAME") ""),
           (String.eqb (env_or_empty env "O365_PASSWORD") "");
    cbn [app length Nat.ltb Nat.leb]; split;
    first [ discriminate | intros (? & ? & ?); discriminate | intros; repeat split ].
Qed.


End ConfigMore.

Section CleanupMore.
Import CleanupLoop.
Variable Remote : Type.
Variable deleteRecord : string -> string -> Remote -> option string * Remote.



End CleanupMore.

Section MoreWitnesses.
Import Attribute.

Lemma setValue_getValue_plain_witness :
  getValue "name" (snd (setValue "name" (VStr "Fabrikam") NoSettings account_form))
  = (Ok (VStr "Fabrikam"),
     snd (setValue "name" (VStr "Fabrikam") NoSettings account_form)).
Proof.
  refine (setValue_getValue_plain account_form _ "name"
            (text_attribute "Contoso" "text" "name") (VStr "Fabrikam") NoSettings _ _ _ _).
  - vm_compute. reflexivity.
  - reflexivity.
  - reflexivity.
  - vm_compute. reflexivity.
Defined.

Lemma date_on_plain_field_read_as_string_witness :
  getValue "name" (snd (setValue "name" (VDate (Some 0%Z)) NoSettings account_form))
  = (Ok (VStr "1970-01-01T00:00:00.000Z"),
     snd (setValue "name" (VDate (Some 0%Z)) NoSettings account_form)).
Proof.
  refine (date_on_plain_field_read_as_string account_form _ "name"
            (text_attribute "Contoso" "text" "name") 0 NoSettings _ _ _).
  - vm_compute. reflexivity.
  - reflexivity.
  - vm_compute. reflexivity.
Defined.

Lemma null_on_datetime_field_writes_epoch_witness :
  getValue "createdon" (snd (setValue "createdon" VNull NoSettings account_form))
  = (Ok (VDate (Some 0%Z)), snd (setValue "createdon" VNull NoSettings account_form)).
Proof.
  refine (proj2 (null_on_datetime_field_writes_epoch account_form _ "createdon"
            {| attrType := "datetime"; attrValue := VNull; attrFormat := Some "datetime";
               attrRequiredLevel := "none"; attrIsDirty := false;
               attrControls := ["createdon"] |} NoSettings _ _ _)).
  - vm_compute. reflexivity.
  - reflexivity.
  - vm_compute. reflexivity.
Defined.

Lemma setValues_pauses_once_per_entry_witness :
  exists written : list JsValue,
    length written = 2
    /\ trace (snd (setValues [("name", VStr "Fabrikam"); ("fax", VStr "+1-555-0111")]
                     (SettleNumber 250) account_form))
       = [] ++ concat (zip_with
                         (fun kv v => [EvSetValue (fst kv) v; EvFireOnChange (fst kv);
                                       EvWaitForTimeout 250])
                         [("name", VStr "Fabrikam"); ("fax", VStr "+1-555-0111")] written).
Proof.
  refine (setValues_pauses_once_per_entry
            [("name", VStr "Fabrikam"); ("fax", VStr "+1-555-0111")]
            (SettleNumber 250) account_form _ _).
  vm_compute. reflexivity.
Defined.

Lemma requiredLevel_round_trip_witness :
  exists w',
    setRequiredLevel "name" "required" account_form = (Ok tt, w')
    /\ getRequiredLevel "name" w' = (Ok "required", w').
Proof.
  destruct (requiredLevel_round_trip account_form "name" "required"
              (text_attribute "Contoso" "text" "name")) as (w' & Hs & Hg & _).
  - vm_compute. reflexivity.
  - exists w'. split; assumption.
Defined.

Lemma setValues_then_getValue_witness :
  getValue "fax"
    (snd (setValues [("name", VStr "Fabrikam"); ("fax", VStr "+1-555-0111")]
            NoSettings account_form))
  = (Ok (VStr "+1-555-0111"),
     snd (setValues [("name", VStr "Fabrikam"); ("fax", VStr "+1-555-0111")]
            NoSettings account_form)).
Proof.
  refine (setValues_then_getValue
            [("name", VStr "Fabrikam"); ("fax", VStr "+1-555-0111")] NoSettings
            account_form _ _ _ _ "fax" (VStr "+1-555-0111") _).
  - apply (bool_decide_unpack _). vm_compute. exact I.
  - intros k v Hin.
    apply elem_of_cons in Hin as [[= -> ->] | Hin];
      [| apply elem_of_cons in Hin as [[= -> ->] | Hin]; [| inversion Hin]];
      (split; [reflexivity |]); eexists; (split; [vm_compute; reflexivity | reflexivity]).
  - vm_compute. reflexivity.
  - apply list_elem_of_In. cbn [In]. right. left. reflexivity.
Defined.

Lemma gate_agrees_with_control_state_witness :
  exists c st,
    c ∈ ["name"]
    /\ Control.get c account_form = (Ok st, account_form)
    /\ Control.isVisible st = true
    /\ Control.isDisabled st = false.
Proof.
  refine (proj1 (gate_agrees_with_control_state account_form "name"
                   (text_attribute "Contoso" "text" "name") (VStr "Fabrikam") NoSettings
                   _ _ _) _).
  - vm_compute. reflexivity.
  - reflexivity.
  - reflexivity.
  - vm_compute. reflexivity.
Defined.


Lemma control_setters_round_trip_witness :
  exists w',
    Control.setLabel "name" "Company" account_form = (Ok tt, w')
    /\ Control.getLabel "name" w' = (Ok "Company", w').
Proof.
  refine (proj1 (control_setters_round_trip account_form "name"
                   (field_control "Account Name" false summary_section) _) "Company").
  vm_compute. reflexivity.
Defined.

Lemma control_setters_touch_one_control_witness :
  exists w' ctl',
    Control.setLabel "name" "Company" account_form = (Ok tt, w')
    /\ attributes w' = attributes account_form
    /\ trace w' = trace account_form
    /\ pageUrl w' = pageUrl account_form
    /\ (forall other, other <> "name" ->
          controls w' !! other = controls account_form !! other)
    /\ controls w' !! "name" = Some ctl'
    /\ ctlParent ctl' = Some summary_section
    /\ ctlGrid ctl' = None
    /\ ctlOptions ctl' = [].
Proof.
  refine (control_setters_touch_one_control account_form "name"
            (field_control "Account Name" false summary_section) true "Company" _
            (Control.setLabel "name" "Company") _).
  - vm_compute. reflexivity.
  - cbn [In]. right. right. left. reflexivity.
Defined.

Lemma openNthRecord_bounds_witness :
  SubGrid.openNthRecord "Contacts" 2 account_form = (Err (OutOfRange 2 2), account_form)
  /\ fst (SubGrid.openNthRecord "Contacts" 1 account_form)
     = Ok ("{A1B2C3D4-0000-4000-8000-00000000000B}", "contact")
  /\ pageUrl (snd (SubGrid.openNthRecord "Contacts" 1 account_form))
     = "https://contoso.crm.dynamics.com/main.aspx?etn=contact&id={A1B2C3D4-0000-4000-8000-00000000000B}&pagetype=entityrecord"
  /\ attributes (snd (SubGrid.openNthRecord "Contacts" 1 account_form))
     = formAttributes contact_form.
Proof.
  split.
  - refine (proj1 (openNthRecord_bounds account_form "Contacts"
                     {| ctlVisible := true; ctlDisabled := false;
                        ctlParent := Some summary_section; ctlLabel := "Contacts";
                        ctlOptions := []; ctlGrid := Some contacts_grid |}
                     contacts_grid 2 _ _) _).
    + vm_compute. reflexivity.
    + reflexivity.
    + vm_compute. discriminate.
  - destruct (proj2 (openNthRecord_bounds account_form "Contacts"
                       {| ctlVisible := true; ctlDisabled := false;
                          ctlParent := Some summary_section; ctlLabel := "Contacts";
                          ctlOptions := []; ctlGrid := Some contacts_grid |}
                       contacts_grid 1 ltac:(vm_compute; reflexivity) eq_refl))
      as (row & Hrow & Href & Hurl & _ & Hattributes & _).
    + vm_compute. split; [discriminate | reflexivity].
    + injection Hrow as <-.
      split; [exact Href |]. split; [exact Hurl |].
      rewrite Hattributes. reflexivity.
Defined.

Lemma visible_count_is_number_of_ids_witness :
  exists ids,
    SubGrid.getRecordIds "Contacts" account_form = (Ok ids, account_form)
    /\ Z.of_nat (length ids) = 2%Z.
Proof.
  refine (visible_count_is_number_of_ids account_form "Contacts" 2 _).
  vm_compute. reflexivity.
Defined.

Lemma normalizeId_canonical_witness :
  SubGrid.normalizeId "a1b2c3d4-0000-4000-8000-00000000000a"
  = "a1b2c3d4-0000-4000-8000-00000000000a".
Proof.
  refine (proj1 (normalizeId_canonical _) _).
  vm_compute. reflexivity.
Defined.

End MoreWitnesses.

Section MoreWitnesses2.

Lemma before_first_splits_at_first_occurrence_witness :
  exists rest,
    "https://contoso.crm.dynamics.com/main.aspx?appid=1"
    = SubGrid.before_first "/main.aspx" "https://contoso.crm.dynamics.com/main.aspx?appid=1"
      +:+ rest
    /\ (rest = "" \/ String.prefix "/main.aspx" rest = true).
Proof.
  destruct (before_first_splits_at_first_occurrence "/main.aspx"
              "https://contoso.crm.dynamics.com/main.aspx?appid=1") as (rest & H1 & H2 & _).
  exists rest. split; assumption.
Defined.

Lemma nonempty_options_copied_witness :
  obj_get "address1_city" (fst (AccountFactory.create empty_parent_options ticking_clock))
  = Some (JStr "London").
Proof.
  destruct (nonempty_options_copied empty_parent_options linked_contact_options
              ticking_clock "London" eq_refl) as ((_ & _ & _ & _ & _ & Hcity & _) & _).
  apply Hcity. reflexivity.
Defined.

Lemma same_payload_iff_same_clock_reading_witness :
  fst (AccountFactory.create empty_parent_options ticking_clock)
  = fst (AccountFactory.create empty_parent_options (fun _ => 1700000000000%Z)).
Proof.
  apply (proj1 (same_payload_iff_same_clock_reading empty_parent_options
                  linked_contact_options ticking_clock (fun _ => 1700000000000%Z))).
  reflexivity.
Defined.

Lemma createBulk_clock_and_empty_counts_witness :
  AccountFactory.createBulk (-3) empty_parent_options ticking_clock = ([], ticking_clock).
Proof.
  refine (proj1 (proj1 (createBulk_clock_and_empty_counts empty_parent_options
                          linked_contact_options ticking_clock (-3)) _)).
  lia.
Defined.

Lemma contact_createBulk_spec_witness :
  Z.of_nat (length (fst (ContactFactory.createBulk 3 linked_contact_options ticking_clock)))
  = 3%Z.
Proof.
  refine (proj1 (contact_createBulk_spec 3 linked_contact_options ticking_clock
                   ticking_clock _)).
  lia.
Defined.

Lemma validateConfig_passes_iff_all_set_witness :
  TestConfiguration.validateConfig
    (TestConfiguration.testConfig
       (list_to_map [("MDA_URL", "https://contoso.crm.dynamics.com/main.aspx?appid=1");
                     ("O365_USERNAME", "tester@contoso.com");
                     ("O365_PASSWORD", "secret")]))
  = inl tt.
Proof.
  apply validateConfig_passes_iff_all_set.
  split; [| split]; eexists; (split; [vm_compute; reflexivity | reflexivity]).
Defined.


End MoreWitnesses2.
